(** * Swift proxy: account controller and gatekeeper middleware

    A shallow embedding of
      - swift/common/middleware/gatekeeper.py
      - swift/proxy/controllers/account.py
    together with the properties of their header filtering and of the
    order in which an account request validates, invalidates the cache and
    contacts the account servers. *)

From Stdlib Require Import Ascii String DecimalString.
From stdpp Require Import base strings list gmap sets fin_maps.

Local Open Scope string_scope.

(** ** Python string helpers *)

Module PyStr.

(** [str.lower] on an 8-bit string: only A-Z are mapped. *)
Definition lower_char (c : ascii) : ascii :=
  let n := nat_of_ascii c in
  if (65 <=? n)%nat && (n <=? 90)%nat then ascii_of_nat (n + 32) else c.

Fixpoint lower (s : string) : string :=
  match s with
  | EmptyString => EmptyString
  | String c s' => String (lower_char c) (lower s')
  end.

(** [sep.join(parts)]. *)
Fixpoint join (sep : string) (parts : list string) : string :=
  match parts with
  | [] => ""
  | [p] => p
  | p :: ps => p ++ sep ++ join sep ps
  end.

(** [s.split(sep)] for a one-character separator. *)
Fixpoint split_go (sep : ascii) (cur : string) (s : string) : list string :=
  match s with
  | EmptyString => [String.rev cur]
  | String c s' =>
      if Ascii.eqb c sep then String.rev cur :: split_go sep "" s'
      else split_go sep (String c cur) s'
  end.

Definition split (sep : ascii) (s : string) : list string := split_go sep "" s.

(** [s.rstrip(c)]: drop every trailing occurrence of [c]. *)
Fixpoint rstrip (c : ascii) (s : string) : string :=
  match s with
  | EmptyString => EmptyString
  | String d s' =>
      match rstrip c s' with
      | EmptyString => if Ascii.eqb d c then EmptyString else String d EmptyString
      | r => String d r
      end
  end.

(** ['%d' % n] for a non-negative integer. *)
Definition fmt_d (n : nat) : string := NilEmpty.string_of_uint (Nat.to_uint n).

Definition hex_val (c : ascii) : option nat :=
  let n := nat_of_ascii c in
  if (48 <=? n)%nat && (n <=? 57)%nat then Some (n - 48)%nat
  else if (65 <=? n)%nat && (n <=? 70)%nat then Some (n - 55)%nat
  else if (97 <=? n)%nat && (n <=? 102)%nat then Some (n - 87)%nat
  else None.

(** [urllib.unquote]: every [%XX] with two hexadecimal digits becomes the
    byte [0xXX]; a [%] not followed by two hexadecimal digits stays. *)
Fixpoint unquote (s : string) : string :=
  match s with
  | EmptyString => EmptyString
  | String c s1 =>
      if Ascii.eqb c "%" then
        match s1 with
        | String h (String l s2) =>
            match hex_val h, hex_val l with
            | Some a, Some b => String (ascii_of_nat (16 * a + b)) (unquote s2)
            | _, _ => String c (unquote s1)
            end
        | _ => String c (unquote s1)
        end
      else String c (unquote s1)
  end.

End PyStr.

(** ** The fragment of Python's [re] the gatekeeper uses

    The exclusion patterns are joined with [|] and compiled with
    [re.IGNORECASE]; the compiled object's [match] is the test.  The
    patterns of this repository are made of literal characters; the source
    comment names one more construct, a trailing [$].  The model covers
    exactly this: a top-level alternation of sequences of literals and [$]. *)

Module Re.

Inductive atom : Type :=
| Lit (c : ascii)
| EndOfString.

Definition regex : Type := list (list atom).

Definition atom_of_char (c : ascii) : atom :=
  if Ascii.eqb c "$" then EndOfString else Lit c.

Definition seq_of_string (s : string) : list atom :=
  map atom_of_char (list_ascii_of_string s).

Definition compile (expr : string) : regex :=
  map seq_of_string (PyStr.split "|" expr).

(** Characters that stand for themselves in a pattern. *)
Definition plain_char (c : ascii) : bool :=
  let n := nat_of_ascii c in
  ((48 <=? n)%nat && (n <=? 57)%nat) || ((65 <=? n)%nat && (n <=? 90)%nat)
  || ((97 <=? n)%nat && (n <=? 122)%nat) || Ascii.eqb c "-" || Ascii.eqb c "_".

Definition supported_char (c : ascii) : bool :=
  plain_char c || Ascii.eqb c "|" || Ascii.eqb c "$".

Definition supported (expr : string) : bool :=
  forallb supported_char (list_ascii_of_string expr).

(** A pattern that is one literal: no [|], no [$]. *)
Definition plain_pattern (p : string) : bool :=
  forallb plain_char (list_ascii_of_string p).

Definition char_eq (ignorecase : bool) (c d : ascii) : bool :=
  if ignorecase then Ascii.eqb (PyStr.lower_char c) (PyStr.lower_char d)
  else Ascii.eqb c d.

(** Does the sequence match at the start of [s]?  [$] matches at the end
    of the string and just before a newline that ends it. *)
Fixpoint match_seq (ignorecase : bool) (p : list atom) (s : string) : bool :=
  match p with
  | [] => true
  | Lit c :: p' =>
      match s with
      | String d s' => char_eq ignorecase c d && match_seq ignorecase p' s'
      | EmptyString => false
      end
  | EndOfString :: p' =>
      match s with
      | EmptyString => match_seq ignorecase p' s
      | String d EmptyString =>
          Ascii.eqb d "010" && match_seq ignorecase p' s
      | _ => false
      end
  end.

(** Truth value of [compiled.match(s)]: anchored at the start only. *)
Definition re_match (ignorecase : bool) (r : regex) (s : string) : bool :=
  existsb (fun p => match_seq ignorecase p s) r.

End Re.

(** ** swift.common.swob: requests and responses

    Only what the two modules read or set.  [headers] of a response holds
    the headers the handler passes to the constructor; [request] is the
    [request=req] argument. *)

Module Swob.

Abbreviation headers := (gmap string string).

Record Request := mkRequest {
  method : string;
  path_info : string;
  query_string : string;
  req_headers : headers
}.

Record Response := mkResponse {
  status_int : nat;
  resp_headers : headers;
  body : string;
  request : option Request
}.

Definition HTTP_NOT_FOUND : nat := 404.

Definition HTTPNoContent (req : Request) (hdrs : headers) : Response :=
  {| status_int := 204; resp_headers := hdrs; body := ""; request := Some req |}.

Definition HTTPBadRequest (req : Request) : Response :=
  {| status_int := 400; resp_headers := ∅; body := ""; request := Some req |}.

Definition HTTPMethodNotAllowed (req : Request) (hdrs : headers) : Response :=
  {| status_int := 405; resp_headers := hdrs; body := ""; request := Some req |}.

(** [resp.body = s] *)
Definition set_body (resp : Response) (s : string) : Response :=
  {| status_int := status_int resp; resp_headers := resp_headers resp;
     body := s; request := request resp |}.

(** [req.headers] after an in-place update. *)
Definition set_req_headers (req : Request) (h : headers) : Request :=
  {| method := method req; path_info := path_info req;
     query_string := query_string req; req_headers := h |}.

Definition set_resp_headers (resp : Response) (h : headers) : Response :=
  {| status_int := status_int resp; resp_headers := h;
     body := body resp; request := request resp |}.

End Swob.

(** ** swift.common.middleware.gatekeeper *)

Module Gatekeeper.

Import Swob.

(** Modelled from the spec: [get_sys_meta_prefix] of
    swift.common.request_helpers is not among the sources.  It returns
    the system-metadata header prefix of a resource class. *)
Definition get_sys_meta_prefix (server_type : string) : string :=
  "x-" ++ PyStr.lower server_type ++ "-sysmeta-".

(** Modelled from the spec: [remove_items] of
    swift.common.request_helpers is not among the sources.  It removes
    from [headers] the items whose key satisfies [condition] and returns
    the removed items; the pair is the mapping left behind and the
    removed items. *)
Definition remove_items (hdrs : headers) (condition : string -> bool)
  : headers * headers :=
  (filter (fun kv => condition kv.1 = false) hdrs,
   filter (fun kv => condition kv.1 = true) hdrs).

Definition inbound_exclusions : list string :=
  [get_sys_meta_prefix "account";
   get_sys_meta_prefix "container";
   get_sys_meta_prefix "object"].

Definition outbound_exclusions : list string := inbound_exclusions.

Definition make_exclusion_test (exclusions : list string) : string -> bool :=
  let expr := PyStr.join "|" exclusions in
  let test := Re.compile expr in
  Re.re_match true test.

Inductive LogEntry : Type :=
| RemovedRequestHeaders (removed : headers)
| RemovedResponseHeaders (removed : headers).

Record GatekeeperMiddleware := mkGatekeeper {
  app : Request -> Response;
  inbound_condition : string -> bool;
  outbound_condition : string -> bool
}.

Definition __init__ (app : Request -> Response) : GatekeeperMiddleware :=
  {| app := app;
     inbound_condition := make_exclusion_test inbound_exclusions;
     outbound_condition := make_exclusion_test outbound_exclusions |}.

(** What one call of the middleware does: the request as handed to the
    wrapped application, the response as handed back to the client, the
    two dicts of removed items and the debug log. *)
Record CallResult := mkCallResult {
  delivered_request : Request;
  removed_inbound : headers;
  delivered_response : Response;
  removed_outbound : headers;
  log : list LogEntry
}.

Definition debug_if_nonempty (removed : headers) (e : LogEntry) : list LogEntry :=
  if decide (removed = ∅) then [] else [e].

Definition __call__ (self : GatekeeperMiddleware) (req : Request) : CallResult :=
  let '(kept_in, removed_in) := remove_items (req_headers req) (inbound_condition self) in
  let req' := set_req_headers req kept_in in
  let log1 := debug_if_nonempty removed_in (RemovedRequestHeaders removed_in) in
  let resp := app self req' in
  let '(kept_out, removed_out) := remove_items (resp_headers resp) (outbound_condition self) in
  let log2 := debug_if_nonempty removed_out (RemovedResponseHeaders removed_out) in
  {| delivered_request := req';
     removed_inbound := removed_in;
     delivered_response := set_resp_headers resp kept_out;
     removed_outbound := removed_out;
     log := log1 ++ log2 |}.

(** Exact-match anchoring: the whole name has to be matched, which is what
    a pattern followed by [$] does. *)
Definition exact_test (exclusions : list string) : string -> bool :=
  make_exclusion_test (map (fun p => p ++ "$") exclusions).

(** Case-insensitive [startswith]. *)
Definition startswith_ci (s p : string) : bool :=
  String.prefix (PyStr.lower p) (PyStr.lower s).

End Gatekeeper.

(** ** swift.proxy.controllers.account *)

Module Account.

Import Swob.

(** What the controller calls and does not define: the account ring, the
    memcache client, the base controller's helpers, the metadata
    constraints and the clock.  [Env] is everything these can read and
    change (replica contents, ring tables, cache contents, time); each
    call takes the environment and hands back the next one.
    [HeadersObj] is the dict [generate_request_headers] returns: the
    controller passes the object on and never looks into it. *)
Record Collaborators := mkCollaborators {
  Env : Type;
  Partition : Type;
  Node : Type;
  HeadersObj : Type;
  Time : Type;
  (* swift.common.constraints *)
  MAX_ACCOUNT_NAME_LENGTH : nat;
  check_metadata : Request -> string -> option Response;
  (* swift.common.utils, time *)
  normalize_timestamp : Time -> string;
  time_time : Env -> Time;
  (* self.app.account_ring *)
  get_nodes : Env -> string -> (Partition * list Node) * Env;
  (* self.app.memcache *)
  get_account_memcache_key : string -> string;
  memcache_delete : Env -> string -> Env;
  (* swift.proxy.controllers.base.Controller *)
  base_allowed_methods : gset string;
  generate_request_headers : Env -> Request -> bool -> HeadersObj * Env;
  make_requests :
    Env -> Request -> Partition -> string -> string -> list HeadersObj -> Response * Env;
  GETorHEAD_base :
    Env -> Request -> string -> Partition -> string -> Response * Env;
  autocreate_account : Env -> string -> Env
}.

(** [self.app]: the proxy's settings the controller reads.  [memcache]
    is the truth value of [self.app.memcache] (a client, or [None]). *)
Record App := mkApp {
  allow_account_management : bool;
  account_autocreate : bool;
  memcache : bool
}.

Record AccountController := mkController {
  app : App;
  account_name : string;
  allowed_methods : gset string
}.

(** [set.remove(x)]: [KeyError] ([None]) when [x] is not a member. *)
Definition set_remove (x : string) (s : gset string) : option (gset string) :=
  if decide (x ∈ s) then Some (s ∖ {[x]}) else None.

Section Controller.

Context (C : Collaborators).

(** One entry per call that leaves the controller. *)
Inductive Event : Type :=
| RingGetNodes (account : string)
| GenerateRequestHeaders (req : Request) (transfer : bool)
| MemcacheDelete (key : string)
| MakeRequests (req : Request) (part : Partition C) (meth path : string)
    (hdrs : list (HeadersObj C))
| GetOrHeadBase (req : Request) (server_type : string) (part : Partition C)
    (path : string)
| AutocreateAccount (account : string)
| TimeTime.

(** A handler: from the environment to its result, the next
    environment and the calls made, oldest first. *)
Definition M (A : Type) : Type := Env C -> A * Env C * list Event.

Definition ret {A} (a : A) : M A := fun e => (a, e, []).

Definition bind {A B} (m : M A) (k : A -> M B) : M B :=
  fun e =>
    let '(a, e1, t1) := m e in
    let '(b, e2, t2) := k a e1 in
    (b, e2, (t1 ++ t2)%list).

Definition perform {A} (ev : Event) (f : Env C -> A * Env C) : M A :=
  fun e => let '(a, e') := f e in (a, e', [ev]).

Definition perform_ (ev : Event) (f : Env C -> Env C) : M unit :=
  fun e => (tt, f e, [ev]).

Notation "x <- m ;; k" := (bind m (fun x => k))
  (at level 100, m at next level, right associativity).
Notation "m ;;; k" := (bind m (fun _ => k))
  (at level 100, right associativity).

(** [AccountController.__init__] *)
Definition __init__ (app : App) (account_name : string) : option AccountController :=
  let allowed := base_allowed_methods C in
  let name := PyStr.unquote account_name in
  if negb (allow_account_management app) then
    match set_remove "PUT" allowed with
    | None => None
    | Some allowed1 =>
        match set_remove "DELETE" allowed1 with
        | None => None
        | Some allowed2 =>
            Some {| app := app; account_name := name; allowed_methods := allowed2 |}
        end
    end
  else Some {| app := app; account_name := name; allowed_methods := allowed |}.

Definition name_too_long (self : AccountController) : bool :=
  (MAX_ACCOUNT_NAME_LENGTH C <? String.length (account_name self))%nat.

Definition name_too_long_response (self : AccountController) (req : Request) : Response :=
  let resp := HTTPBadRequest req in
  set_body resp
    ("Account name length of " ++ PyStr.fmt_d (String.length (account_name self))
     ++ " longer than " ++ PyStr.fmt_d (MAX_ACCOUNT_NAME_LENGTH C)).

(** [', '.join(self.allowed_methods)], the set walked in the order
    [elements] gives. *)
Definition allow_header (self : AccountController) : headers :=
  {[ "Allow" := PyStr.join ", " (elements (allowed_methods self)) ]}.

Definition fake_headers (timestamp : string) : headers :=
  list_to_map
    [("Content-Length", "0");
     ("Accept-Ranges", "bytes");
     ("Content-Type", "text/plain; charset=utf-8");
     ("X-Timestamp", timestamp);
     ("X-Account-Bytes-Used", "0");
     ("X-Account-Container-Count", "0");
     ("X-Account-Object-Count", "0")].

(** [if self.app.memcache: self.app.memcache.delete(key)] *)
Definition invalidate_cache (self : AccountController) : M unit :=
  if memcache (app self) then
    let key := get_account_memcache_key C (account_name self) in
    perform_ (MemcacheDelete key) (fun e => memcache_delete C e key)
  else ret tt.

Definition ring_get_nodes (name : string) : M (Partition C * list (Node C)) :=
  perform (RingGetNodes name) (fun e => get_nodes C e name).

Definition gen_headers (req : Request) (transfer : bool) : M (HeadersObj C) :=
  perform (GenerateRequestHeaders req transfer)
    (fun e => generate_request_headers C e req transfer).

Definition do_make_requests (req : Request) (part : Partition C)
    (meth path : string) (hdrs : list (HeadersObj C)) : M Response :=
  perform (MakeRequests req part meth path hdrs)
    (fun e => make_requests C e req part meth path hdrs).

Definition GETorHEAD (self : AccountController) (req : Request) : M Response :=
  if name_too_long self then ret (name_too_long_response self req)
  else
    pn <- ring_get_nodes (account_name self) ;;
    let partition := pn.1 in
    let path := PyStr.rstrip "/" (path_info req) in
    resp <- perform (GetOrHeadBase req "Account" partition path)
              (fun e => GETorHEAD_base C e req "Account" partition path) ;;
    if (status_int resp =? HTTP_NOT_FOUND)%nat && account_autocreate (app self) then
      now <- perform TimeTime (fun e => (time_time C e, e)) ;;
      let hdrs := fake_headers (normalize_timestamp C now) in
      ret (HTTPNoContent req hdrs)
    else ret resp.

(** The base controller's public [GET] and [HEAD] both call
    [self.GETorHEAD(req)]. *)
Definition GET := GETorHEAD.
Definition HEAD := GETorHEAD.

Definition PUT (self : AccountController) (req : Request) : M Response :=
  if negb (allow_account_management (app self)) then
    ret (HTTPMethodNotAllowed req (allow_header self))
  else
    match check_metadata C req "account" with
    | Some error_response => ret error_response
    | None =>
        if name_too_long self then ret (name_too_long_response self req)
        else
          pn <- ring_get_nodes (account_name self) ;;
          let '(account_partition, accounts) := pn in
          hdrs <- gen_headers req true ;;
          invalidate_cache self ;;;
          resp <- do_make_requests req account_partition "PUT" (path_info req)
                    (replicate (length accounts) hdrs) ;;
          ret resp
    end.

Definition POST (self : AccountController) (req : Request) : M Response :=
  if name_too_long self then ret (name_too_long_response self req)
  else
    match check_metadata C req "account" with
    | Some error_response => ret error_response
    | None =>
        pn <- ring_get_nodes (account_name self) ;;
        let '(account_partition, accounts) := pn in
        hdrs <- gen_headers req true ;;
        invalidate_cache self ;;;
        resp <- do_make_requests req account_partition "POST" (path_info req)
                  (replicate (length accounts) hdrs) ;;
        if (status_int resp =? HTTP_NOT_FOUND)%nat && account_autocreate (app self) then
          perform_ (AutocreateAccount (account_name self))
            (fun e => autocreate_account C e (account_name self)) ;;;
          resp <- do_make_requests req account_partition "POST" (path_info req)
                    (replicate (length accounts) hdrs) ;;
          ret resp
        else ret resp
    end.

Definition DELETE (self : AccountController) (req : Request) : M Response :=
  if negb (String.eqb (query_string req) "") then ret (HTTPBadRequest req)
  else if negb (allow_account_management (app self)) then
    ret (HTTPMethodNotAllowed req (allow_header self))
  else
    pn <- ring_get_nodes (account_name self) ;;
    let '(account_partition, accounts) := pn in
    hdrs <- gen_headers req false ;;
    invalidate_cache self ;;;
    resp <- do_make_requests req account_partition "DELETE" (path_info req)
              (replicate (length accounts) hdrs) ;;
    ret resp.

(** Reading a list of calls. *)
Definition is_ring_lookup (ev : Event) : bool :=
  match ev with RingGetNodes _ => true | _ => false end.

Definition is_dispatch (ev : Event) : bool :=
  match ev with
  | MakeRequests _ _ _ _ _ | GetOrHeadBase _ _ _ _ | AutocreateAccount _ => true
  | _ => false
  end.

Definition is_make_requests (ev : Event) : bool :=
  match ev with MakeRequests _ _ _ _ _ => true | _ => false end.

Definition is_cache_delete (ev : Event) : bool :=
  match ev with MemcacheDelete _ => true | _ => false end.

Definition is_autocreate (ev : Event) : bool :=
  match ev with AutocreateAccount _ => true | _ => false end.

Definition is_generate_headers (ev : Event) : bool :=
  match ev with GenerateRequestHeaders _ _ => true | _ => false end.

(** The handler behind a method name. *)
Inductive Method : Type := mGET | mHEAD | mPUT | mPOST | mDELETE.

Definition handle (m : Method) : AccountController -> Request -> M Response :=
  match m with
  | mGET => GET
  | mHEAD => HEAD
  | mPUT => PUT
  | mPOST => POST
  | mDELETE => DELETE
  end.

(** The method string a handler puts on its dispatches. *)
Definition method_name (m : Method) : string :=
  match m with
  | mGET => "GET"
  | mHEAD => "HEAD"
  | mPUT => "PUT"
  | mPOST => "POST"
  | mDELETE => "DELETE"
  end.

(** A call of handler [m] for [self] and [req] is about this account and
    this request: the names, the cache key, the path and the method are
    the controller's and the request's own. *)
Definition own_call (self : AccountController) (req : Request) (m : Method)
    (ev : Event) : Prop :=
  match ev with
  | RingGetNodes account => account = account_name self
  | GenerateRequestHeaders r transfer =>
      r = req /\ transfer = match m with mDELETE => false | _ => true end
  | MemcacheDelete key => key = get_account_memcache_key C (account_name self)
  | MakeRequests r _ meth path _ =>
      r = req /\ meth = method_name m /\ path = path_info req
  | GetOrHeadBase r server_type _ path =>
      r = req /\ server_type = "Account" /\ path = PyStr.rstrip "/" (path_info req)
  | AutocreateAccount account => account = account_name self /\ m = mPOST
  | TimeTime => m = mGET \/ m = mHEAD
  end.

(** How many of the calls satisfy [p]. *)
Definition count_calls (p : Event -> bool) (calls : list Event) : nat :=
  length (List.filter p calls).

End Controller.

Arguments ret {C A} a.
Arguments RingGetNodes {C} account.
Arguments GenerateRequestHeaders {C} req transfer.
Arguments MemcacheDelete {C} key.
Arguments MakeRequests {C} req part meth path hdrs.
Arguments GetOrHeadBase {C} req server_type part path.
Arguments AutocreateAccount {C} account.
Arguments TimeTime {C}.
Arguments is_ring_lookup {C} ev.
Arguments is_dispatch {C} ev.
Arguments is_make_requests {C} ev.
Arguments is_cache_delete {C} ev.
Arguments is_autocreate {C} ev.
Arguments is_generate_headers {C} ev.
Arguments count_calls {C} p calls.

End Account.

(** ** A small concrete deployment

    One account, three account servers, a clock and a cache: enough to run
    the handlers and the middleware on concrete requests. *)

Module Demo.

Import Swob Account.

Record World := mkWorld {
  account_exists : bool;
  clock : N;
  cached : gset string
}.

Definition plain_response (status : nat) : Response :=
  {| status_int := status; resp_headers := ∅; body := ""; request := None |}.

Definition set_exists (w : World) (b : bool) : World :=
  {| account_exists := b; clock := clock w; cached := cached w |}.

(** The account servers: PUT creates, POST and DELETE need the account. *)
Definition make_requests (w : World) (req : Request) (part : nat)
    (meth path : string) (hdrs : list headers) : Response * World :=
  if String.eqb meth "PUT" then (plain_response 201, set_exists w true)
  else if account_exists w then
    (plain_response 204, if String.eqb meth "DELETE" then set_exists w false else w)
  else (plain_response 404, w).

Definition GETorHEAD_base (w : World) (req : Request) (server_type : string)
    (part : nat) (path : string) : Response * World :=
  (plain_response (if account_exists w then 204 else 404), w).

(** An [X-Account-Meta-] header with an empty name is malformed. *)
Definition check_metadata (req : Request) (target_type : string) : option Response :=
  let prefix := "x-" ++ PyStr.lower target_type ++ "-meta-" in
  let nameless :=
    filter (fun kv => PyStr.lower kv.1 = prefix) (req_headers req) in
  if decide (nameless = ∅) then None
  else Some (set_body (HTTPBadRequest req) "Metadata name cannot be empty").

Definition generate_request_headers (w : World) (req : Request) (transfer : bool)
  : headers * World :=
  (<["X-Trans-Id" := "-"]>
     (if transfer then
        filter (fun kv => String.prefix "X-Account-Meta-" kv.1 = true) (req_headers req)
      else ∅), w).

Definition collaborators : Collaborators :=
  {| Env := World;
     Partition := nat;
     Node := string;
     HeadersObj := headers;
     Time := N;
     MAX_ACCOUNT_NAME_LENGTH := 256;
     Account.check_metadata := check_metadata;
     normalize_timestamp := fun t => NilEmpty.string_of_uint (N.to_uint t) ++ ".00000";
     time_time := clock;
     get_nodes := fun w name => ((String.length name mod 4, ["sda"; "sdb"; "sdc"]), w);
     get_account_memcache_key := fun name => "account/" ++ name;
     memcache_delete := fun w key =>
       {| account_exists := account_exists w; clock := clock w;
          cached := cached w ∖ {[key]} |};
     base_allowed_methods :=
       {[ "GET"; "HEAD"; "PUT"; "POST"; "DELETE"; "OPTIONS" ]};
     Account.generate_request_headers := generate_request_headers;
     Account.make_requests := make_requests;
     Account.GETorHEAD_base := GETorHEAD_base;
     autocreate_account := fun w name => set_exists w true |}.

Definition world0 : World :=
  {| account_exists := false; clock := 1380144470%N;
     cached := {[ "account/alpha" ]} |}.

Definition mk_request (meth path query : string) (hdrs : headers) : Request :=
  {| method := meth; path_info := path; query_string := query; req_headers := hdrs |}.

(** 300 characters once decoded: longer than the 256 allowed. *)
Definition long_name : string :=
  PyStr.join "" (replicate 100 "%41bc").

Definition app_settings (management autocreate cache : bool) : App :=
  {| allow_account_management := management;
     account_autocreate := autocreate;
     memcache := cache |}.

Definition restricted_methods : gset string :=
  {[ "GET"; "HEAD"; "POST"; "OPTIONS" ]}.

(** The controller [__init__] builds for these settings and this raw
    account name. *)
Definition controller (a : App) (raw : string) : AccountController :=
  {| app := a;
     account_name := PyStr.unquote raw;
     allowed_methods :=
       if allow_account_management a then base_allowed_methods collaborators
       else restricted_methods |}.

(** A wrapped application for the middleware: it answers with a private
    header and a public one. *)
Definition echo_app (req : Request) : Response :=
  {| status_int := 200;
     resp_headers := {[ "X-Container-Sysmeta-Shard" := "7"; "Content-Length" := "0" ]};
     body := ""; request := Some req |}.

End Demo.

(** * Properties of the gatekeeper *)

Section GatekeeperFacts.

Import Swob Gatekeeper.

Lemma lower_char_eqb_dec (c d : ascii) :
  Ascii.eqb (PyStr.lower_char c) (PyStr.lower_char d)
  = if ascii_dec (PyStr.lower_char c) (PyStr.lower_char d) then true else false.
Proof.
  destruct (ascii_dec _ _) as [->|Hne].
  - apply Ascii.eqb_refl.
  - by apply Ascii.eqb_neq.
Qed.

(** A pattern without [$] is a literal: matching it, ignoring case, is
    [startswith] on the lower-cased strings. *)
Lemma match_literal (p : string) :
  forallb (fun c => negb (Ascii.eqb c "$")) (list_ascii_of_string p) = true ->
  forall s, Re.match_seq true (Re.seq_of_string p) s = startswith_ci s p.
Proof.
  unfold startswith_ci, Re.seq_of_string.
  induction p as [|c p IH]; intros Hp s.
  - by destruct s.
  - simpl in Hp. apply andb_prop in Hp as [Hc Hp].
    simpl. unfold Re.atom_of_char at 1.
    destruct (Ascii.eqb c "$"); [done|].
    destruct s as [|d s]; [done|].
    simpl. unfold Re.char_eq. rewrite lower_char_eqb_dec.
    destruct (ascii_dec _ _); [by apply IH|done].
Qed.

Lemma exclusion_test_startswith (name : string) :
  make_exclusion_test inbound_exclusions name
  = existsb (startswith_ci name) inbound_exclusions.
Proof.
  unfold make_exclusion_test, Re.re_match.
  change (Re.compile (PyStr.join "|" inbound_exclusions))
    with (map Re.seq_of_string inbound_exclusions).
  unfold inbound_exclusions. cbn [map existsb].
  rewrite !match_literal by reflexivity. reflexivity.
Qed.

Lemma remove_items_kept (hdrs : headers) (condition : string -> bool) (k : string) :
  (remove_items hdrs condition).1 !! k = if condition k then None else hdrs !! k.
Proof.
  unfold remove_items. simpl. rewrite map_lookup_filter. simpl.
  destruct (hdrs !! k) as [v|] eqn:Hk; simpl.
  - destruct (condition k); by simplify_option_eq.
  - by destruct (condition k).
Qed.

Lemma remove_items_removed (hdrs : headers) (condition : string -> bool) (k : string) :
  (remove_items hdrs condition).2 !! k = if condition k then hdrs !! k else None.
Proof.
  unfold remove_items. simpl. rewrite map_lookup_filter. simpl.
  destruct (hdrs !! k) as [v|] eqn:Hk; simpl.
  - destruct (condition k); by simplify_option_eq.
  - by destruct (condition k).
Qed.

End GatekeeperFacts.

(** C2, as stated, fails: the header [X-Account-Sysmeta-Foo] is not an
    exact match of any of the three patterns (neither with a trailing [$]
    nor as a case-insensitive equality with a pattern), and the inbound
    filter removes it all the same. *)
Lemma C2_counterexample :
  let name := "X-Account-Sysmeta-Foo" in
  let req := Demo.mk_request "GET" "/v1/a" "" {[ name := "1" ]} in
  let r := Gatekeeper.__call__ (Gatekeeper.__init__ Demo.echo_app) req in
  Gatekeeper.exact_test Gatekeeper.inbound_exclusions name = false
  /\ Forall (fun p => PyStr.lower name <> PyStr.lower p) Gatekeeper.inbound_exclusions
  /\ Swob.req_headers (Gatekeeper.delivered_request r) !! name = None
  /\ Gatekeeper.removed_inbound r !! name = Some "1".
Proof.
  cbv zeta. split; [reflexivity|]. split.
  - repeat constructor; discriminate.
  - split; vm_compute; reflexivity.
Qed.


Lemma init_inbound_condition (app : Swob.Request -> Swob.Response) :
  Gatekeeper.inbound_condition (Gatekeeper.__init__ app)
  = Gatekeeper.make_exclusion_test Gatekeeper.inbound_exclusions.
Proof. reflexivity. Qed.

Lemma init_outbound_condition (app : Swob.Request -> Swob.Response) :
  Gatekeeper.outbound_condition (Gatekeeper.__init__ app)
  = Gatekeeper.make_exclusion_test Gatekeeper.inbound_exclusions.
Proof. reflexivity. Qed.

(** The two halves of a call, each as one [remove_items]. *)
Lemma call_inbound (gk : Gatekeeper.GatekeeperMiddleware) (req : Swob.Request) :
  let r := Gatekeeper.__call__ gk req in
  let split_in :=
    Gatekeeper.remove_items (Swob.req_headers req) (Gatekeeper.inbound_condition gk) in
  Swob.req_headers (Gatekeeper.delivered_request r) = split_in.1
  /\ Gatekeeper.removed_inbound r = split_in.2.
Proof.
  unfold Gatekeeper.__call__.
  destruct (Gatekeeper.remove_items (Swob.req_headers req) _) as [kept_in removed_in].
  destruct (Gatekeeper.remove_items (Swob.resp_headers _) _) as [kept_out removed_out].
  split; reflexivity.
Qed.

Lemma call_outbound (gk : Gatekeeper.GatekeeperMiddleware) (req : Swob.Request) :
  let r := Gatekeeper.__call__ gk req in
  let split_out :=
    Gatekeeper.remove_items
      (Swob.resp_headers (Gatekeeper.app gk (Gatekeeper.delivered_request r)))
      (Gatekeeper.outbound_condition gk) in
  Swob.resp_headers (Gatekeeper.delivered_response r) = split_out.1
  /\ Gatekeeper.removed_outbound r = split_out.2.
Proof.
  unfold Gatekeeper.__call__.
  destruct (Gatekeeper.remove_items (Swob.req_headers req) _) as [kept_in removed_in].
  cbn [Gatekeeper.delivered_request].
  destruct (Gatekeeper.remove_items (Swob.resp_headers _) _) as [kept_out removed_out].
  split; reflexivity.
Qed.

(** C2 (amended): the inbound filter removes from the request exactly the
    headers whose name starts, ignoring case, with one of the three
    system-metadata prefixes (account, container, object); every other
    header stays with its value, the removed items are the ones handed
    back, and the filter is a total function of the request. *)
Theorem C2_inbound_filter_removes_prefixed
    (app : Swob.Request -> Swob.Response) (req : Swob.Request) (name : string) :
  let r := Gatekeeper.__call__ (Gatekeeper.__init__ app) req in
  let excluded := existsb (Gatekeeper.startswith_ci name) Gatekeeper.inbound_exclusions in
  Gatekeeper.inbound_exclusions
    = ["x-account-sysmeta-"; "x-container-sysmeta-"; "x-object-sysmeta-"]
  /\ Swob.req_headers (Gatekeeper.delivered_request r) !! name
     = (if excluded then None else Swob.req_headers req !! name)
  /\ Gatekeeper.removed_inbound r !! name
     = (if excluded then Swob.req_headers req !! name else None).
Proof.
  intros r excluded. split; [reflexivity|].
  subst r excluded.
  destruct (call_inbound (Gatekeeper.__init__ app) req) as [-> ->].
  rewrite remove_items_kept, remove_items_removed, init_inbound_condition.
  rewrite exclusion_test_startswith. split; reflexivity.
Qed.

(** C3: the inbound and the outbound test are the same predicate, so a
    mapping is split the same way in both directions; no header handed
    to the wrapped application or back to the client satisfies the test,
    and in each direction the removed names and the delivered names are
    disjoint. *)
Theorem C3_gate_symmetry
    (app : Swob.Request -> Swob.Response) (req : Swob.Request) :
  let gk := Gatekeeper.__init__ app in
  let r := Gatekeeper.__call__ gk req in
  (forall name : string,
     Gatekeeper.inbound_condition gk name = Gatekeeper.outbound_condition gk name)
  /\ (forall hdrs : Swob.headers,
        Gatekeeper.remove_items hdrs (Gatekeeper.inbound_condition gk)
        = Gatekeeper.remove_items hdrs (Gatekeeper.outbound_condition gk))
  /\ (forall name : string,
        Gatekeeper.inbound_condition gk name = true ->
        Swob.req_headers (Gatekeeper.delivered_request r) !! name = None
        /\ Swob.resp_headers (Gatekeeper.delivered_response r) !! name = None)
  /\ (forall name : string,
        name ∈ dom (Gatekeeper.removed_inbound r) ∪ dom (Gatekeeper.removed_outbound r) ->
        Gatekeeper.inbound_condition gk name = true)
  /\ dom (Gatekeeper.removed_inbound r)
       ## dom (Swob.req_headers (Gatekeeper.delivered_request r))
  /\ dom (Gatekeeper.removed_outbound r)
       ## dom (Swob.resp_headers (Gatekeeper.delivered_response r)).
Proof.
  intros gk r.
  assert (Hsame : Gatekeeper.outbound_condition gk = Gatekeeper.inbound_condition gk).
  { unfold gk. by rewrite init_inbound_condition, init_outbound_condition. }
  subst r.
  destruct (call_inbound gk req) as [Hk1 Hr1].
  destruct (call_outbound gk req) as [Hk2 Hr2].
  rewrite Hk1, Hr1, Hk2, Hr2, Hsame.
  generalize (Gatekeeper.app gk (Gatekeeper.delivered_request (Gatekeeper.__call__ gk req))).
  generalize (Gatekeeper.inbound_condition gk).
  intros cond resp.
  assert (Hrem : forall (hdrs : Swob.headers) name,
             name ∈ dom (Gatekeeper.remove_items hdrs cond).2 -> cond name = true).
  { intros hdrs name [v Hv]%elem_of_dom. rewrite remove_items_removed in Hv.
    by destruct (cond name). }
  assert (Hkept : forall (hdrs : Swob.headers) name,
             name ∈ dom (Gatekeeper.remove_items hdrs cond).1 -> cond name = false).
  { intros hdrs name [v Hv]%elem_of_dom. rewrite remove_items_kept in Hv.
    by destruct (cond name). }
  split; [done|]. split; [done|]. split; [|split; [|split]].
  - intros name Hc. rewrite !remove_items_kept, Hc. done.
  - intros name [Hin|Hin]%elem_of_union; eauto.
  - intros name Hin1%Hrem Hin2%Hkept. congruence.
  - intros name Hin1%Hrem Hin2%Hkept. congruence.
Qed.

(** * Properties of the account controller *)

(** Unfold a handler down to the calls of its collaborators. *)
Ltac unfold_handler :=
  unfold Account.handle, Account.GET, Account.HEAD, Account.GETorHEAD,
    Account.PUT, Account.POST, Account.DELETE, Account.bind,
    Account.ring_get_nodes, Account.gen_headers, Account.invalidate_cache,
    Account.do_make_requests, Account.perform, Account.perform_, Account.ret.

Section AccountFacts.

Import Swob Account.

Context (C : Collaborators).

Implicit Types (self : AccountController) (req : Request) (e : Env C).

Lemma init_fields (a : App) (raw : string) self :
  __init__ C a raw = Some self ->
  app self = a /\ account_name self = PyStr.unquote raw.
Proof.
  unfold __init__. intros H.
  destruct (negb (allow_account_management a)).
  - destruct (set_remove "PUT" _) as [s1|]; [|done].
    destruct (set_remove "DELETE" s1) as [s2|]; [|done].
    by inversion H.
  - by inversion H.
Qed.

Lemma init_allowed_methods (a : App) (raw : string) self :
  __init__ C a raw = Some self ->
  allow_account_management a = false ->
  allowed_methods self = (base_allowed_methods C ∖ {["PUT"]}) ∖ {["DELETE"]}.
Proof.
  unfold __init__, set_remove. intros H Hoff. rewrite Hoff in H. simpl in H.
  destruct (decide ("PUT" ∈ base_allowed_methods C)); [|done].
  destruct (decide ("DELETE" ∈ base_allowed_methods C ∖ {["PUT"]})); [|done].
  by inversion H.
Qed.

Lemma init_name_too_long (a : App) (raw : string) self :
  __init__ C a raw = Some self ->
  (MAX_ACCOUNT_NAME_LENGTH C < String.length (PyStr.unquote raw))%nat ->
  name_too_long C self = true.
Proof.
  intros [_ Hname]%init_fields Hlen. unfold name_too_long. rewrite Hname.
  by apply Nat.ltb_lt.
Qed.

Lemma query_string_truthy (s : string) :
  s <> "" -> negb (String.eqb s "") = true.
Proof.
  intros Hs. apply negb_true_iff. by apply String.eqb_neq.
Qed.

(** A POST that passes validation, up to and after its first dispatch. *)
Lemma POST_dispatched self req e part accounts e1 h e2 resp1 e4 :
  name_too_long C self = false ->
  check_metadata C req "account" = None ->
  get_nodes C e (account_name self) = ((part, accounts), e1) ->
  generate_request_headers C e1 req true = (h, e2) ->
  make_requests C (invalidate_cache C self e2).1.2 req part "POST" (path_info req)
    (replicate (length accounts) h) = (resp1, e4) ->
  let dispatch :=
    MakeRequests req part "POST" (path_info req) (replicate (length accounts) h) in
  let first :=
    ([RingGetNodes (account_name self); GenerateRequestHeaders req true]
     ++ (invalidate_cache C self e2).2 ++ [dispatch])%list in
  POST C self req e =
    if (status_int resp1 =? HTTP_NOT_FOUND)%nat && account_autocreate (app self) then
      let second :=
        make_requests C (autocreate_account C e4 (account_name self)) req part "POST"
          (path_info req) (replicate (length accounts) h) in
      (second.1, second.2,
       (first ++ [AutocreateAccount (account_name self); dispatch])%list)
    else (resp1, e4, first).
Proof.
  intros Hname Hmeta Hring Hgen Hfirst dispatch first. subst dispatch first.
  unfold_handler. rewrite Hname, Hmeta, Hring, Hgen. revert Hfirst.
  unfold_handler. destruct (memcache (app self)); simpl; intros ->;
    destruct (_ && _); simpl; [destruct (make_requests _ _ _ _ _ _ _)| |
                               destruct (make_requests _ _ _ _ _ _ _)|]; reflexivity.
Qed.

(** A PUT that passes the policy check and validation. *)
Lemma PUT_dispatched self req e part accounts e1 h e2 :
  allow_account_management (app self) = true ->
  check_metadata C req "account" = None ->
  name_too_long C self = false ->
  get_nodes C e (account_name self) = ((part, accounts), e1) ->
  generate_request_headers C e1 req true = (h, e2) ->
  let dispatch :=
    MakeRequests req part "PUT" (path_info req) (replicate (length accounts) h) in
  let sent :=
    make_requests C (invalidate_cache C self e2).1.2 req part "PUT" (path_info req)
      (replicate (length accounts) h) in
  PUT C self req e =
    (sent.1, sent.2,
     ([RingGetNodes (account_name self); GenerateRequestHeaders req true]
      ++ (invalidate_cache C self e2).2 ++ [dispatch])%list).
Proof.
  intros Hon Hmeta Hname Hring Hgen dispatch sent. subst dispatch sent.
  unfold_handler. rewrite Hon, Hmeta, Hname. cbn. rewrite Hring, Hgen.
  destruct (memcache (app self)); simpl;
    destruct (make_requests _ _ _ _ _ _ _); reflexivity.
Qed.

(** A DELETE that passes the query-string and the policy check. *)
Lemma DELETE_dispatched self req e part accounts e1 h e2 :
  query_string req = "" ->
  allow_account_management (app self) = true ->
  get_nodes C e (account_name self) = ((part, accounts), e1) ->
  generate_request_headers C e1 req false = (h, e2) ->
  let dispatch :=
    MakeRequests req part "DELETE" (path_info req) (replicate (length accounts) h) in
  let sent :=
    make_requests C (invalidate_cache C self e2).1.2 req part "DELETE" (path_info req)
      (replicate (length accounts) h) in
  DELETE C self req e =
    (sent.1, sent.2,
     ([RingGetNodes (account_name self); GenerateRequestHeaders req false]
      ++ (invalidate_cache C self e2).2 ++ [dispatch])%list).
Proof.
  intros Hq Hon Hring Hgen dispatch sent. subst dispatch sent.
  unfold_handler. rewrite Hq, Hon. cbn. rewrite Hring, Hgen.
  destruct (memcache (app self)); simpl;
    destruct (make_requests _ _ _ _ _ _ _); reflexivity.
Qed.

End AccountFacts.

Section AccountClaims.

Import Swob Account.

Context (C : Collaborators).

Implicit Types (self : AccountController) (req : Request) (e : Env C).

(** C1 (amended): with a percent-decoded account name longer than the
    maximum, GET, HEAD and POST answer with the name-length bad request
    and make no call at all; PUT makes no call either (the ring is not
    resolved, nothing is dispatched), and answers method-not-allowed
    when account management is off, the metadata error when the
    metadata is malformed, and the name-length bad request otherwise. *)
Theorem C1_long_name_rejected_before_any_call (a : App) (raw : string) self req e :
  __init__ C a raw = Some self ->
  (MAX_ACCOUNT_NAME_LENGTH C < String.length (PyStr.unquote raw))%nat ->
  let bad := name_too_long_response C self req in
  status_int bad = 400
  /\ GET C self req e = (bad, e, [])
  /\ HEAD C self req e = (bad, e, [])
  /\ POST C self req e = (bad, e, [])
  /\ PUT C self req e =
       (if negb (allow_account_management a) then
          HTTPMethodNotAllowed req (allow_header self)
        else match check_metadata C req "account" with
             | Some error_response => error_response
             | None => bad
             end,
        e, []).
Proof.
  intros Hinit Hlen bad.
  pose proof (init_name_too_long C a raw self Hinit Hlen) as Hlong.
  destruct (init_fields C a raw self Hinit) as [Happ _].
  split; [reflexivity|].
  unfold_handler. rewrite Hlong, Happ.
  repeat split.
  destruct (negb (allow_account_management a)); [reflexivity|].
  destruct (check_metadata C req "account"); reflexivity.
Qed.

(** C7: a DELETE whose query string is not empty is answered with a
    bad request, whatever the settings and whatever the account
    servers hold; no call is made and the environment is untouched, so
    the account-management check is never reached. *)
Theorem C7_delete_with_query_string_is_bad_request self req e :
  query_string req <> "" ->
  DELETE C self req e = (HTTPBadRequest req, e, [])
  /\ status_int (HTTPBadRequest req) = 400.
Proof.
  intros Hq. split; [|reflexivity].
  unfold_handler. by rewrite (query_string_truthy _ Hq).
Qed.

(** C8: with account management off, PUT, and DELETE with an empty
    query string, answer method-not-allowed without validating and
    without any call; the Allow header is the join of the controller's
    allowed methods, which are the base controller's without PUT and
    DELETE. *)
Theorem C8_management_disabled_not_allowed (a : App) (raw : string) self req e :
  __init__ C a raw = Some self ->
  allow_account_management a = false ->
  let rejection := HTTPMethodNotAllowed req (allow_header self) in
  status_int rejection = 405
  /\ PUT C self req e = (rejection, e, [])
  /\ (query_string req = "" -> DELETE C self req e = (rejection, e, []))
  /\ resp_headers rejection !! "Allow"
       = Some (PyStr.join ", " (elements (allowed_methods self)))
  /\ allowed_methods self = (base_allowed_methods C ∖ {["PUT"]}) ∖ {["DELETE"]}
  /\ ("PUT" ∉ elements (allowed_methods self))
  /\ ("DELETE" ∉ elements (allowed_methods self)).
Proof.
  intros Hinit Hoff rejection.
  destruct (init_fields C a raw self Hinit) as [Happ _].
  pose proof (init_allowed_methods C a raw self Hinit Hoff) as Hallowed.
  split; [reflexivity|].
  split; [unfold_handler; by rewrite Happ, Hoff|].
  split; [intros Hq; unfold_handler; by rewrite Hq, Happ, Hoff|].
  split; [apply lookup_singleton_eq|].
  split; [done|].
  rewrite Hallowed. split; rewrite elem_of_elements.
  - intros [[_ Hn]%elem_of_difference _]%elem_of_difference.
    apply Hn. by apply elem_of_singleton.
  - intros [_ Hn]%elem_of_difference.
    apply Hn. by apply elem_of_singleton.
Qed.

(** C9: PUT validates the metadata before the name, POST the name
    before the metadata: with both wrong, PUT (account management on)
    returns the metadata error and POST the name-length bad request:
    status 400, no header, the body that reports the length of the
    decoded name and the maximum.  Neither makes a call. *)
Theorem C9_put_and_post_check_in_opposite_orders self req e error_response :
  check_metadata C req "account" = Some error_response ->
  name_too_long C self = true ->
  allow_account_management (app self) = true ->
  PUT C self req e = (error_response, e, [])
  /\ POST C self req e = (name_too_long_response C self req, e, [])
  /\ POST C self req e
     = ({| status_int := 400;
           resp_headers := ∅;
           body := "Account name length of "
                   ++ PyStr.fmt_d (String.length (account_name self))
                   ++ " longer than " ++ PyStr.fmt_d (MAX_ACCOUNT_NAME_LENGTH C);
           request := Some req |}, e, [])
  /\ status_int (POST C self req e).1.1 = 400.
Proof.
  intros Hmeta Hlong Hon.
  assert (Hput : PUT C self req e = (error_response, e, []))
    by (unfold_handler; by rewrite Hon, Hmeta).
  assert (Hpost : POST C self req e = (name_too_long_response C self req, e, []))
    by (unfold_handler; by rewrite Hlong).
  split; [exact Hput|]. split; [exact Hpost|].
  rewrite Hpost. split; reflexivity.
Qed.

(** C4: a GET or HEAD that passes the name check resolves the ring once
    and reads once.  If that read says not-found and autocreate is on,
    the answer is a synthesized 204 with zero usage and a timestamp
    taken from the clock at that moment; the only further call is the
    clock read, and the environment is the one the single read left.
    Otherwise the read's response is returned unchanged. *)
Theorem C4_read_autocreate_fakes_empty_account self req e part nodes e1 resp1 e2 :
  name_too_long C self = false ->
  get_nodes C e (account_name self) = ((part, nodes), e1) ->
  GETorHEAD_base C e1 req "Account" part (PyStr.rstrip "/" (path_info req))
    = (resp1, e2) ->
  let lookup :=
    [RingGetNodes (account_name self);
     GetOrHeadBase req "Account" part (PyStr.rstrip "/" (path_info req))] in
  let timestamp := normalize_timestamp C (time_time C e2) in
  let fake := HTTPNoContent req (fake_headers timestamp) in
  (forall m, m = mGET \/ m = mHEAD ->
     (status_int resp1 = HTTP_NOT_FOUND /\ account_autocreate (app self) = true ->
      handle C m self req e = (fake, e2, (lookup ++ [TimeTime])%list))
     /\ (status_int resp1 <> HTTP_NOT_FOUND \/ account_autocreate (app self) = false ->
         handle C m self req e = (resp1, e2, lookup)))
  /\ status_int fake = 204
  /\ resp_headers fake !! "X-Account-Bytes-Used" = Some "0"
  /\ resp_headers fake !! "X-Account-Container-Count" = Some "0"
  /\ resp_headers fake !! "X-Account-Object-Count" = Some "0"
  /\ resp_headers fake !! "X-Timestamp" = Some timestamp
  /\ length (List.filter is_dispatch (lookup ++ [TimeTime])%list) = 1%nat.
Proof.
  intros Hname Hring Hread lookup timestamp fake.
  assert (Hrun : GETorHEAD C self req e =
                 if (status_int resp1 =? HTTP_NOT_FOUND)%nat
                    && account_autocreate (app self)
                 then (fake, e2, (lookup ++ [TimeTime])%list)
                 else (resp1, e2, lookup)).
  { unfold_handler. rewrite Hname, Hring. cbn [fst snd]. rewrite Hread.
    by destruct (_ && _). }
  split; [|by repeat split].
  intros m [-> | ->]; cbn [handle]; unfold GET, HEAD; rewrite Hrun; split.
  1, 3: intros [H404 Hauto]; rewrite H404, Hauto; reflexivity.
  all: intros [Hne | Hoff].
  1, 3: apply Nat.eqb_neq in Hne; by rewrite Hne.
  all: rewrite Hoff; by rewrite andb_false_r.
Qed.

(** C5: a POST that passes validation dispatches once.  If that first
    decision is not-found and autocreate is on, the controller issues
    exactly one implicit create and exactly one more POST dispatch, and
    returns the second decision whatever its status; otherwise it
    returns the first decision with no create and no second dispatch. *)
Theorem C5_post_autocreate_retries_once self req e part accounts e1 h e2 resp1 e4 :
  name_too_long C self = false ->
  check_metadata C req "account" = None ->
  get_nodes C e (account_name self) = ((part, accounts), e1) ->
  generate_request_headers C e1 req true = (h, e2) ->
  make_requests C (invalidate_cache C self e2).1.2 req part "POST" (path_info req)
    (replicate (length accounts) h) = (resp1, e4) ->
  let second :=
    make_requests C (autocreate_account C e4 (account_name self)) req part "POST"
      (path_info req) (replicate (length accounts) h) in
  let run := POST C self req e in
  (status_int resp1 = HTTP_NOT_FOUND /\ account_autocreate (app self) = true ->
     run.1.1 = second.1
     /\ run.1.2 = second.2
     /\ List.filter is_autocreate run.2 = [AutocreateAccount (account_name self)]
     /\ length (List.filter is_make_requests run.2) = 2%nat
     /\ exists before,
          run.2 = (before ++
                   [MakeRequests req part "POST" (path_info req)
                      (replicate (length accounts) h);
                    AutocreateAccount (account_name self);
                    MakeRequests req part "POST" (path_info req)
                      (replicate (length accounts) h)])%list
          /\ List.filter is_dispatch before = [])
  /\ (status_int resp1 <> HTTP_NOT_FOUND \/ account_autocreate (app self) = false ->
      run.1.1 = resp1
      /\ run.1.2 = e4
      /\ List.filter is_autocreate run.2 = []
      /\ length (List.filter is_make_requests run.2) = 1%nat).
Proof.
  intros Hname Hmeta Hring Hgen Hfirst second run. subst run.
  rewrite (POST_dispatched C self req e part accounts e1 h e2 resp1 e4
             Hname Hmeta Hring Hgen Hfirst).
  cbv zeta. fold second. split.
  - intros [H404 Hauto]. rewrite H404, Hauto. cbn [Nat.eqb andb fst snd].
    unfold invalidate_cache, perform_, ret.
    destruct (memcache (app self)); cbn; repeat split.
    + by eexists [_; _; _].
    + by eexists [_; _].
  - intros Hno.
    assert ((status_int resp1 =? HTTP_NOT_FOUND)%nat
            && account_autocreate (app self) = false) as ->.
    { destruct Hno as [Hne | Hoff].
      - apply Nat.eqb_neq in Hne. by rewrite Hne.
      - rewrite Hoff. apply andb_false_r. }
    unfold invalidate_cache, perform_, ret.
    destruct (memcache (app self)); cbn; repeat split.
Qed.

(** C10: on the autocreate retry of a POST the second dispatch is the
    same call as the first: same partition, method, path and list of
    header objects.  The ring is resolved once and the request headers
    are generated once, both before the first dispatch. *)
Theorem C10_post_retry_repeats_the_dispatch self req e part accounts e1 h e2 resp1 e4 :
  name_too_long C self = false ->
  check_metadata C req "account" = None ->
  get_nodes C e (account_name self) = ((part, accounts), e1) ->
  generate_request_headers C e1 req true = (h, e2) ->
  make_requests C (invalidate_cache C self e2).1.2 req part "POST" (path_info req)
    (replicate (length accounts) h) = (resp1, e4) ->
  status_int resp1 = HTTP_NOT_FOUND ->
  account_autocreate (app self) = true ->
  let calls := (POST C self req e).2 in
  let dispatch :=
    MakeRequests req part "POST" (path_info req) (replicate (length accounts) h) in
  List.filter is_make_requests calls = [dispatch; dispatch]
  /\ List.filter is_ring_lookup calls = [RingGetNodes (account_name self)]
  /\ List.filter is_generate_headers calls = [GenerateRequestHeaders req true]
  /\ exists before,
       calls = (before ++ [dispatch; AutocreateAccount (account_name self); dispatch])%list
       /\ List.filter is_make_requests before = [].
Proof.
  intros Hname Hmeta Hring Hgen Hfirst H404 Hauto calls dispatch. subst calls.
  rewrite (POST_dispatched C self req e part accounts e1 h e2 resp1 e4
             Hname Hmeta Hring Hgen Hfirst).
  cbv zeta. rewrite H404, Hauto. cbn [Nat.eqb andb fst snd].
  unfold invalidate_cache, perform_, ret.
  destruct (memcache (app self)); cbn; repeat split.
  - by eexists [_; _; _].
  - by eexists [_; _].
Qed.

(** C6 (amended): in a PUT, POST or DELETE that reaches dispatch, the
    calls are: some calls that neither dispatch nor touch the cache,
    then the invalidation, then the first dispatch and whatever follows
    it, in which the cache is not touched again.  The invalidation is
    one delete of the account's cache key when a cache client is
    configured and nothing when none is; it does not depend on any
    response. *)
Theorem C6_cache_invalidated_before_dispatch (m : Method) self req e :
  m = mPUT \/ m = mPOST \/ m = mDELETE ->
  existsb is_dispatch (handle C m self req e).2 = true ->
  let invalidation :=
    if memcache (app self)
    then [MemcacheDelete (get_account_memcache_key C (account_name self))]
    else [] in
  exists before dispatch after,
    (handle C m self req e).2 = (before ++ invalidation ++ dispatch :: after)%list
    /\ is_make_requests dispatch = true
    /\ List.filter is_dispatch before = []
    /\ List.filter is_cache_delete before = []
    /\ List.filter is_cache_delete after = [].
Proof.
  intros Hm. cbv zeta.
  destruct (get_nodes C e (account_name self)) as [[part accounts] e1] eqn:Hring.
  destruct Hm as [-> | [-> | ->]]; cbn [handle].
  - (* PUT *)
    destruct (allow_account_management (app self)) eqn:Hon;
      [|unfold_handler; rewrite Hon; discriminate].
    destruct (check_metadata C req "account") eqn:Hmeta;
      [unfold_handler; rewrite Hon, Hmeta; discriminate|].
    destruct (name_too_long C self) eqn:Hname;
      [unfold_handler; rewrite Hon, Hmeta, Hname; discriminate|].
    destruct (generate_request_headers C e1 req true) as [h e2] eqn:Hgen.
    rewrite (PUT_dispatched C self req e part accounts e1 h e2
               Hon Hmeta Hname Hring Hgen).
    intros _. unfold invalidate_cache, perform_, ret.
    destruct (memcache (app self)); eexists [_; _], _, _; cbn; repeat split.
  - (* POST *)
    destruct (name_too_long C self) eqn:Hname;
      [unfold_handler; rewrite Hname; discriminate|].
    destruct (check_metadata C req "account") eqn:Hmeta;
      [unfold_handler; rewrite Hname, Hmeta; discriminate|].
    destruct (generate_request_headers C e1 req true) as [h e2] eqn:Hgen.
    destruct (make_requests C (invalidate_cache C self e2).1.2 req part "POST"
                (path_info req) (replicate (length accounts) h))
      as [resp1 e4] eqn:Hfirst.
    rewrite (POST_dispatched C self req e part accounts e1 h e2 resp1 e4
               Hname Hmeta Hring Hgen Hfirst).
    intros _. cbv zeta. unfold invalidate_cache, perform_, ret.
    destruct (_ && _); destruct (memcache (app self));
      eexists [_; _], _, _; cbn; repeat split.
  - (* DELETE *)
    destruct (String.eqb (query_string req) "") eqn:Hq;
      [|unfold_handler; rewrite Hq; discriminate].
    apply String.eqb_eq in Hq.
    destruct (allow_account_management (app self)) eqn:Hon;
      [|unfold_handler; rewrite Hq, Hon; discriminate].
    destruct (generate_request_headers C e1 req false) as [h e2] eqn:Hgen.
    rewrite (DELETE_dispatched C self req e part accounts e1 h e2
               Hq Hon Hring Hgen).
    intros _. unfold invalidate_cache, perform_, ret.
    destruct (memcache (app self)); eexists [_; _], _, _; cbn; repeat split.
Qed.

End AccountClaims.

(** * The demo deployment, run *)

(** C1, as stated, fails for a name of 300 characters: PUT with account
    management off is answered 405 method-not-allowed and not 400; and
    DELETE, which has no name-length check, with account management on
    and an empty query string resolves the ring and dispatches. *)
Lemma C1_counterexample :
  let off := Demo.app_settings false true true in
  let on := Demo.app_settings true true true in
  let put := Demo.mk_request "PUT" "/v1/long" "" ∅ in
  let delete := Demo.mk_request "DELETE" "/v1/long" "" ∅ in
  let run_put :=
    Account.PUT Demo.collaborators (Demo.controller off Demo.long_name) put Demo.world0 in
  let run_delete :=
    Account.DELETE Demo.collaborators (Demo.controller on Demo.long_name) delete
      Demo.world0 in
  Account.__init__ Demo.collaborators off Demo.long_name
    = Some (Demo.controller off Demo.long_name)
  /\ Account.__init__ Demo.collaborators on Demo.long_name
     = Some (Demo.controller on Demo.long_name)
  /\ String.length (PyStr.unquote Demo.long_name) = 300%nat
  /\ Account.MAX_ACCOUNT_NAME_LENGTH Demo.collaborators = 256%nat
  /\ Swob.status_int run_put.1.1 = 405%nat
  /\ List.filter Account.is_ring_lookup run_delete.2
     = [Account.RingGetNodes (PyStr.unquote Demo.long_name)]
  /\ List.filter Account.is_dispatch run_delete.2
     = [Account.MakeRequests (C := Demo.collaborators) delete 0%nat "DELETE" "/v1/long"
          (replicate 3 ({[ "X-Trans-Id" := "-" ]} : Swob.headers))]
  /\ Swob.status_int run_delete.1.1 = 404%nat.
Proof.
  cbv zeta. repeat split; vm_compute; reflexivity.
Qed.

(** C6, as stated, fails: with no cache client configured a PUT reaches
    dispatch and no invalidation is issued, before or after; the cache
    entry of the account is still there. *)
Lemma C6_counterexample :
  let a := Demo.app_settings true false false in
  let self := Demo.controller a "alpha" in
  let req := Demo.mk_request "PUT" "/v1/alpha" "" ∅ in
  let run := Account.PUT Demo.collaborators self req Demo.world0 in
  List.filter Account.is_make_requests run.2
    = [Account.MakeRequests (C := Demo.collaborators) req 1%nat "PUT" "/v1/alpha"
         (replicate 3 ({[ "X-Trans-Id" := "-" ]} : Swob.headers))]
  /\ List.filter Account.is_cache_delete run.2 = []
  /\ Swob.status_int run.1.1 = 201%nat
  /\ Demo.cached run.1.2 = {[ "account/alpha" ]}.
Proof.
  cbv zeta. repeat split; vm_compute; reflexivity.
Qed.

(** ** The theorems at concrete requests *)

Lemma C1_witness :
  let a := Demo.app_settings true true true in
  let self := Demo.controller a Demo.long_name in
  let req := Demo.mk_request "POST" "/v1/long" "" ∅ in
  Account.__init__ Demo.collaborators a Demo.long_name = Some self
  /\ (Account.MAX_ACCOUNT_NAME_LENGTH Demo.collaborators
      < String.length (PyStr.unquote Demo.long_name))%nat
  /\ Account.POST Demo.collaborators self req Demo.world0
     = (Account.name_too_long_response Demo.collaborators self req, Demo.world0, [])
  /\ Account.PUT Demo.collaborators self req Demo.world0
     = (Account.name_too_long_response Demo.collaborators self req, Demo.world0, []).
Proof.
  cbv zeta.
  assert (Hinit : Account.__init__ Demo.collaborators (Demo.app_settings true true true)
                    Demo.long_name
                  = Some (Demo.controller (Demo.app_settings true true true)
                            Demo.long_name))
    by (vm_compute; reflexivity).
  assert (Hlen : (Account.MAX_ACCOUNT_NAME_LENGTH Demo.collaborators
                  < String.length (PyStr.unquote Demo.long_name))%nat)
    by (apply Nat.ltb_lt; vm_compute; reflexivity).
  split; [exact Hinit|]. split; [exact Hlen|].
  destruct (C1_long_name_rejected_before_any_call Demo.collaborators _ _ _
              (Demo.mk_request "POST" "/v1/long" "" ∅) Demo.world0 Hinit Hlen)
    as (_ & _ & _ & Hpost & Hput).
  split; [exact Hpost | exact Hput].
Defined.

Lemma C4_witness :
  let a := Demo.app_settings false true true in
  let self := Demo.controller a "alpha" in
  let req := Demo.mk_request "HEAD" "/v1/alpha/" "" ∅ in
  Account.name_too_long Demo.collaborators self = false
  /\ Account.get_nodes Demo.collaborators Demo.world0 (Account.account_name self)
     = ((1%nat, ["sda"; "sdb"; "sdc"]), Demo.world0)
  /\ Account.GETorHEAD_base Demo.collaborators Demo.world0 req "Account" 1%nat
       (PyStr.rstrip "/" (Swob.path_info req))
     = (Demo.plain_response 404, Demo.world0)
  /\ Account.handle Demo.collaborators Account.mHEAD self req Demo.world0
     = (Swob.HTTPNoContent req (Account.fake_headers "1380144470.00000"),
        Demo.world0,
        [Account.RingGetNodes "alpha";
         Account.GetOrHeadBase (C := Demo.collaborators) req "Account" 1%nat "/v1/alpha";
         Account.TimeTime]).
Proof.
  cbv zeta.
  split; [reflexivity|]. split; [reflexivity|]. split; [reflexivity|].
  destruct (C4_read_autocreate_fakes_empty_account Demo.collaborators
              (Demo.controller (Demo.app_settings false true true) "alpha")
              (Demo.mk_request "HEAD" "/v1/alpha/" "" ∅)
              Demo.world0 1%nat ["sda"; "sdb"; "sdc"] Demo.world0
              (Demo.plain_response 404) Demo.world0
              eq_refl eq_refl eq_refl) as [Hrun _].
  destruct (Hrun Account.mHEAD (or_intror eq_refl)) as [Hfake _].
  exact (Hfake (conj eq_refl eq_refl)).
Defined.

Lemma C7_witness :
  let a := Demo.app_settings true true true in
  let self := Demo.controller a "alpha" in
  let req := Demo.mk_request "DELETE" "/v1/alpha" "bulk-delete" ∅ in
  let world := Demo.set_exists Demo.world0 true in
  Swob.query_string req <> ""
  /\ Account.DELETE Demo.collaborators self req world = (Swob.HTTPBadRequest req, world, []).
Proof.
  cbv zeta.
  assert (Hq : Swob.query_string (Demo.mk_request "DELETE" "/v1/alpha" "bulk-delete" ∅)
               <> "") by (simpl; discriminate).
  split; [exact Hq|].
  exact (proj1 (C7_delete_with_query_string_is_bad_request Demo.collaborators
                  (Demo.controller (Demo.app_settings true true true) "alpha")
                  _ (Demo.set_exists Demo.world0 true) Hq)).
Defined.

Lemma C8_witness :
  let a := Demo.app_settings false true true in
  let self := Demo.controller a "beta" in
  let req := Demo.mk_request "PUT" "/v1/beta" "" ∅ in
  let world := Demo.set_exists Demo.world0 true in
  Account.__init__ Demo.collaborators a "beta" = Some self
  /\ Account.allow_account_management a = false
  /\ Account.PUT Demo.collaborators self req world
     = (Swob.HTTPMethodNotAllowed req (Account.allow_header self), world, [])
  /\ ("PUT" ∉ elements (Account.allowed_methods self))
  /\ ("DELETE" ∉ elements (Account.allowed_methods self)).
Proof.
  cbv zeta.
  assert (Hinit : Account.__init__ Demo.collaborators (Demo.app_settings false true true) "beta"
                  = Some (Demo.controller (Demo.app_settings false true true) "beta"))
    by (vm_compute; reflexivity).
  split; [exact Hinit|]. split; [reflexivity|].
  destruct (C8_management_disabled_not_allowed Demo.collaborators _ _ _
              (Demo.mk_request "PUT" "/v1/beta" "" ∅)
              (Demo.set_exists Demo.world0 true) Hinit eq_refl)
    as (_ & Hput & _ & _ & _ & Hno_put & Hno_delete).
  split; [exact Hput|]. split; [exact Hno_put | exact Hno_delete].
Defined.

Lemma C9_witness :
  let a := Demo.app_settings true true true in
  let self := Demo.controller a Demo.long_name in
  let req := Demo.mk_request "PUT" "/v1/long" "" {[ "X-Account-Meta-" := "v" ]} in
  let error_response :=
    Swob.set_body (Swob.HTTPBadRequest req) "Metadata name cannot be empty" in
  Account.check_metadata Demo.collaborators req "account" = Some error_response
  /\ Account.name_too_long Demo.collaborators self = true
  /\ Account.allow_account_management (Account.app self) = true
  /\ Account.PUT Demo.collaborators self req Demo.world0
     = (error_response, Demo.world0, [])
  /\ Account.POST Demo.collaborators self req Demo.world0
     = (Account.name_too_long_response Demo.collaborators self req, Demo.world0, [])
  /\ Swob.status_int (Account.POST Demo.collaborators self req Demo.world0).1.1 = 400%nat
  /\ Swob.body (Account.POST Demo.collaborators self req Demo.world0).1.1
     = "Account name length of 300 longer than 256".
Proof.
  cbv zeta.
  assert (Hmeta : Account.check_metadata Demo.collaborators
                    (Demo.mk_request "PUT" "/v1/long" "" {[ "X-Account-Meta-" := "v" ]})
                    "account"
                  = Some (Swob.set_body
                            (Swob.HTTPBadRequest
                               (Demo.mk_request "PUT" "/v1/long" ""
                                  {[ "X-Account-Meta-" := "v" ]}))
                            "Metadata name cannot be empty"))
    by (vm_compute; reflexivity).
  assert (Hlong : Account.name_too_long Demo.collaborators
                    (Demo.controller (Demo.app_settings true true true) Demo.long_name)
                  = true)
    by (vm_compute; reflexivity).
  split; [exact Hmeta|]. split; [exact Hlong|]. split; [reflexivity|].
  destruct (C9_put_and_post_check_in_opposite_orders Demo.collaborators _ _
              Demo.world0 _ Hmeta Hlong eq_refl) as (Hput & Hpost & Hexact & Hstatus).
  split; [exact Hput|]. split; [exact Hpost|]. split; [exact Hstatus|].
  rewrite Hexact. vm_compute. reflexivity.
Defined.

Lemma C5_witness :
  let a := Demo.app_settings false true true in
  let self := Demo.controller a "alpha" in
  let req := Demo.mk_request "POST" "/v1/alpha" "" {[ "X-Account-Meta-Color" := "blue" ]} in
  let h : Swob.headers := {[ "X-Account-Meta-Color" := "blue"; "X-Trans-Id" := "-" ]} in
  let flushed := Demo.mkWorld false 1380144470%N ∅ in
  Account.name_too_long Demo.collaborators self = false
  /\ Account.check_metadata Demo.collaborators req "account" = None
  /\ Account.get_nodes Demo.collaborators Demo.world0 (Account.account_name self)
     = ((1%nat, ["sda"; "sdb"; "sdc"]), Demo.world0)
  /\ Account.generate_request_headers Demo.collaborators Demo.world0 req true
     = (h, Demo.world0)
  /\ Account.make_requests Demo.collaborators
       (Account.invalidate_cache Demo.collaborators self Demo.world0).1.2
       req 1%nat "POST" (Swob.path_info req) (replicate 3 h)
     = (Demo.plain_response 404, flushed)
  /\ (Account.POST Demo.collaborators self req Demo.world0).1.1 = Demo.plain_response 204
  /\ List.filter Account.is_autocreate
       (Account.POST Demo.collaborators self req Demo.world0).2
     = [Account.AutocreateAccount "alpha"]
  /\ length (List.filter Account.is_make_requests
               (Account.POST Demo.collaborators self req Demo.world0).2) = 2%nat.
Proof.
  cbv zeta.
  set (self := Demo.controller (Demo.app_settings false true true) "alpha").
  set (req := Demo.mk_request "POST" "/v1/alpha" ""
                {[ "X-Account-Meta-Color" := "blue" ]}).
  set (h := ({[ "X-Account-Meta-Color" := "blue"; "X-Trans-Id" := "-" ]} : Swob.headers)).
  assert (Hname : Account.name_too_long Demo.collaborators self = false)
    by (vm_compute; reflexivity).
  assert (Hmeta : Account.check_metadata Demo.collaborators req "account" = None)
    by (vm_compute; reflexivity).
  assert (Hring : Account.get_nodes Demo.collaborators Demo.world0
                    (Account.account_name self)
                  = ((1%nat, ["sda"; "sdb"; "sdc"]), Demo.world0))
    by (vm_compute; reflexivity).
  assert (Hgen : Account.generate_request_headers Demo.collaborators Demo.world0 req true
                 = (h, Demo.world0))
    by (vm_compute; reflexivity).
  assert (Hfirst : Account.make_requests Demo.collaborators
                     (Account.invalidate_cache Demo.collaborators self Demo.world0).1.2
                     req 1%nat "POST" (Swob.path_info req)
                     (replicate (length ["sda"; "sdb"; "sdc"]) h)
                   = (Demo.plain_response 404, Demo.mkWorld false 1380144470%N ∅))
    by (vm_compute; reflexivity).
  split; [exact Hname|]. split; [exact Hmeta|]. split; [exact Hring|].
  split; [exact Hgen|]. split; [exact Hfirst|].
  destruct (C5_post_autocreate_retries_once Demo.collaborators self req Demo.world0
              _ _ _ _ _ _ _ Hname Hmeta Hring Hgen Hfirst) as [Hretry _].
  destruct (Hretry (conj eq_refl eq_refl)) as (Hresp & _ & Hcreate & Hcount & _).
  split; [rewrite Hresp; vm_compute; reflexivity|].
  split; [exact Hcreate | exact Hcount].
Defined.

Lemma C6_witness :
  let a := Demo.app_settings true false true in
  let self := Demo.controller a "alpha" in
  let req := Demo.mk_request "PUT" "/v1/alpha" "" ∅ in
  let calls := (Account.handle Demo.collaborators Account.mPUT self req Demo.world0).2 in
  existsb Account.is_dispatch calls = true
  /\ exists before dispatch after,
       calls = (before ++ [Account.MemcacheDelete "account/alpha"] ++ dispatch :: after)%list
       /\ Account.is_make_requests dispatch = true
       /\ List.filter Account.is_dispatch before = []
       /\ List.filter Account.is_cache_delete before = []
       /\ List.filter Account.is_cache_delete after = [].
Proof.
  cbv zeta.
  assert (Hd : existsb Account.is_dispatch
                 (Account.handle Demo.collaborators Account.mPUT
                    (Demo.controller (Demo.app_settings true false true) "alpha")
                    (Demo.mk_request "PUT" "/v1/alpha" "" ∅) Demo.world0).2 = true)
    by (vm_compute; reflexivity).
  split; [exact Hd|].
  exact (C6_cache_invalidated_before_dispatch Demo.collaborators Account.mPUT _ _ _
           (or_introl eq_refl) Hd).
Defined.

Lemma C10_witness :
  let a := Demo.app_settings false true true in
  let self := Demo.controller a "alpha" in
  let req := Demo.mk_request "POST" "/v1/alpha" "" {[ "X-Account-Meta-Color" := "blue" ]} in
  let h : Swob.headers := {[ "X-Account-Meta-Color" := "blue"; "X-Trans-Id" := "-" ]} in
  let flushed := Demo.mkWorld false 1380144470%N ∅ in
  let dispatch :=
    Account.MakeRequests (C := Demo.collaborators) req 1%nat "POST" "/v1/alpha"
      (replicate 3 h) in
  Account.name_too_long Demo.collaborators self = false
  /\ Account.check_metadata Demo.collaborators req "account" = None
  /\ Account.get_nodes Demo.collaborators Demo.world0 (Account.account_name self)
     = ((1%nat, ["sda"; "sdb"; "sdc"]), Demo.world0)
  /\ Account.generate_request_headers Demo.collaborators Demo.world0 req true
     = (h, Demo.world0)
  /\ Account.make_requests Demo.collaborators
       (Account.invalidate_cache Demo.collaborators self Demo.world0).1.2
       req 1%nat "POST" (Swob.path_info req) (replicate 3 h)
     = (Demo.plain_response 404, flushed)
  /\ Swob.status_int (Demo.plain_response 404) = Swob.HTTP_NOT_FOUND
  /\ Account.account_autocreate (Account.app self) = true
  /\ List.filter Account.is_make_requests
       (Account.POST Demo.collaborators self req Demo.world0).2
     = [dispatch; dispatch]
  /\ List.filter Account.is_ring_lookup
       (Account.POST Demo.collaborators self req Demo.world0).2
     = [Account.RingGetNodes "alpha"].
Proof.
  cbv zeta.
  set (self := Demo.controller (Demo.app_settings false true true) "alpha").
  set (req := Demo.mk_request "POST" "/v1/alpha" ""
                {[ "X-Account-Meta-Color" := "blue" ]}).
  set (h := ({[ "X-Account-Meta-Color" := "blue"; "X-Trans-Id" := "-" ]} : Swob.headers)).
  assert (Hname : Account.name_too_long Demo.collaborators self = false)
    by (vm_compute; reflexivity).
  assert (Hmeta : Account.check_metadata Demo.collaborators req "account" = None)
    by (vm_compute; reflexivity).
  assert (Hring : Account.get_nodes Demo.collaborators Demo.world0
                    (Account.account_name self)
                  = ((1%nat, ["sda"; "sdb"; "sdc"]), Demo.world0))
    by (vm_compute; reflexivity).
  assert (Hgen : Account.generate_request_headers Demo.collaborators Demo.world0 req true
                 = (h, Demo.world0))
    by (vm_compute; reflexivity).
  assert (Hfirst : Account.make_requests Demo.collaborators
                     (Account.invalidate_cache Demo.collaborators self Demo.world0).1.2
                     req 1%nat "POST" (Swob.path_info req)
                     (replicate (length ["sda"; "sdb"; "sdc"]) h)
                   = (Demo.plain_response 404, Demo.mkWorld false 1380144470%N ∅))
    by (vm_compute; reflexivity).
  split; [exact Hname|]. split; [exact Hmeta|]. split; [exact Hring|].
  split; [exact Hgen|]. split; [exact Hfirst|].
  split; [reflexivity|]. split; [reflexivity|].
  destruct (C10_post_retry_repeats_the_dispatch Demo.collaborators self req Demo.world0
              _ _ _ _ _ _ _ Hname Hmeta Hring Hgen Hfirst eq_refl eq_refl)
    as (Htwice & Honce & _).
  split; [exact Htwice | exact Honce].
Defined.

(** ** Sanity checks of the string and pattern helpers *)

Example unquote_examples :
  PyStr.unquote "AUTH%5Ftest" = "AUTH_test"
  /\ PyStr.unquote "100%" = "100%"
  /\ PyStr.unquote "%4%41%zz" = "%4A%zz".
Proof. repeat split; reflexivity. Qed.

Example rstrip_examples :
  PyStr.rstrip "/" "/v1/a//" = "/v1/a" /\ PyStr.rstrip "/" "/v1/a/b" = "/v1/a/b".
Proof. split; reflexivity. Qed.

Example exclusion_expression :
  PyStr.join "|" Gatekeeper.inbound_exclusions
    = "x-account-sysmeta-|x-container-sysmeta-|x-object-sysmeta-"
  /\ Re.supported (PyStr.join "|" Gatekeeper.inbound_exclusions) = true.
Proof. split; reflexivity. Qed.

(** With a trailing [$], as the source comment advises for exact
    matches, only the bare prefix itself would be excluded. *)
Example exact_test_examples :
  Gatekeeper.exact_test Gatekeeper.inbound_exclusions "X-Object-Sysmeta-" = true
  /\ Gatekeeper.exact_test Gatekeeper.inbound_exclusions "X-Object-Sysmeta-Etag" = false
  /\ Gatekeeper.make_exclusion_test Gatekeeper.inbound_exclusions "X-Object-Sysmeta-Etag"
     = true
  /\ Gatekeeper.make_exclusion_test Gatekeeper.inbound_exclusions "X-Object-Meta-Etag"
     = false.
Proof. repeat split; reflexivity. Qed.

(** * Further properties: strings and patterns *)

Section StringFacts.

Lemma append_cons (c : ascii) (s t : string) : String c s ++ t = String c (s ++ t).
Proof. reflexivity. Qed.

Lemma rev_app_rev_app (p cur acc : string) :
  String.rev_app (String.rev_app p cur) acc = String.rev_app cur (p ++ acc).
Proof.
  revert cur acc. induction p as [|c p IH]; intros cur acc; [done|].
  rewrite append_cons. cbn. by rewrite IH.
Qed.

Lemma append_empty_r (s : string) : s ++ "" = s.
Proof. induction s as [|c s IH]; [done|]. by rewrite append_cons, IH. Qed.

Lemma lower_append (a b : string) :
  PyStr.lower (a ++ b) = PyStr.lower a ++ PyStr.lower b.
Proof.
  induction a as [|c a IH]; [done|]. rewrite append_cons. cbn. by rewrite IH.
Qed.

Lemma prefix_append (p a b : string) :
  String.prefix p a = true -> String.prefix p (a ++ b) = true.
Proof.
  revert a. induction p as [|c p IH]; intros a.
  - by destruct a, b.
  - destruct a as [|d a]; [done|]. rewrite append_cons. simpl.
    destruct (ascii_dec c d); [apply IH|done].
Qed.

(** [(a + sep + b).split(sep) = a.split(sep) + b.split(sep)] *)
Lemma split_go_append (sep : ascii) (cur a b : string) :
  PyStr.split_go sep cur (a ++ String sep b)
  = (PyStr.split_go sep cur a ++ PyStr.split_go sep "" b)%list.
Proof.
  revert cur. induction a as [|c a IH]; intros cur.
  - change ("" ++ String sep b) with (String sep b). simpl.
    by rewrite Ascii.eqb_refl.
  - rewrite append_cons. simpl.
    destruct (Ascii.eqb c sep); simpl; by rewrite IH.
Qed.

Lemma split_go_no_separator (sep : ascii) (cur p : string) :
  forallb (fun c => negb (Ascii.eqb c sep)) (list_ascii_of_string p) = true ->
  PyStr.split_go sep cur p = [String.rev (String.rev_app p cur)].
Proof.
  revert cur. induction p as [|c p IH]; intros cur Hp; simpl; [done|].
  simpl in Hp. apply andb_prop in Hp as [Hc Hp].
  apply negb_true_iff in Hc. rewrite Hc. by apply IH.
Qed.

Lemma split_no_separator (sep : ascii) (p : string) :
  forallb (fun c => negb (Ascii.eqb c sep)) (list_ascii_of_string p) = true ->
  PyStr.split sep p = [p].
Proof.
  intros Hp. unfold PyStr.split. rewrite split_go_no_separator by done.
  unfold String.rev. rewrite rev_app_rev_app. simpl. by rewrite append_empty_r.
Qed.

Lemma split_join_flat (ps : list string) :
  ps <> [] ->
  PyStr.split "|" (PyStr.join "|" ps) = flat_map (PyStr.split "|") ps.
Proof.
  induction ps as [|p ps IH]; [done|]. intros _.
  destruct ps as [|q ps].
  - simpl. by rewrite app_nil_r.
  - change (PyStr.join "|" (p :: q :: ps))
      with (p ++ String "|" (PyStr.join "|" (q :: ps))).
    unfold PyStr.split at 1. rewrite split_go_append.
    fold (PyStr.split "|" p). fold (PyStr.split "|" (PyStr.join "|" (q :: ps))).
    rewrite IH by done. reflexivity.
Qed.

Lemma plain_char_not_meta (c : ascii) :
  Re.plain_char c = true ->
  negb (Ascii.eqb c "|") = true /\ negb (Ascii.eqb c "$") = true.
Proof.
  destruct c as [[] [] [] [] [] [] [] []]; vm_compute; intros H;
    first [discriminate H | split; reflexivity].
Qed.

Lemma plain_pattern_not_meta (p : string) :
  Re.plain_pattern p = true ->
  forallb (fun c => negb (Ascii.eqb c "|")) (list_ascii_of_string p) = true
  /\ forallb (fun c => negb (Ascii.eqb c "$")) (list_ascii_of_string p) = true.
Proof.
  unfold Re.plain_pattern. induction p as [|c p IH]; simpl; [done|].
  intros [Hc Hp]%andb_prop. destruct (plain_char_not_meta c Hc) as [-> ->].
  by apply IH.
Qed.

Lemma compile_plain (ps : list string) :
  ps <> [] ->
  Forall (fun p => Re.plain_pattern p = true) ps ->
  Re.compile (PyStr.join "|" ps) = map Re.seq_of_string ps.
Proof.
  intros Hne Hps. unfold Re.compile. rewrite split_join_flat by done.
  f_equal. clear Hne. induction Hps as [|p ps Hp _ IH]; [done|].
  simpl. rewrite IH.
  by rewrite (split_no_separator "|" p (proj1 (plain_pattern_not_meta p Hp))).
Qed.

Lemma lower_char_idemp (c : ascii) :
  PyStr.lower_char (PyStr.lower_char c) = PyStr.lower_char c.
Proof. destruct c as [[] [] [] [] [] [] [] []]; reflexivity. Qed.

Lemma lower_char_newline (c : ascii) :
  Ascii.eqb (PyStr.lower_char c) "010" = Ascii.eqb c "010".
Proof. destruct c as [[] [] [] [] [] [] [] []]; reflexivity. Qed.

Lemma lower_idemp (s : string) : PyStr.lower (PyStr.lower s) = PyStr.lower s.
Proof.
  induction s as [|c s IH]; simpl; [done|]. by rewrite lower_char_idemp, IH.
Qed.

Lemma match_seq_lower (p : list Re.atom) (s : string) :
  Re.match_seq true p (PyStr.lower s) = Re.match_seq true p s.
Proof.
  revert s. induction p as [|a p IH]; intros s; [done|].
  destruct a as [c|].
  - destruct s as [|d s]; simpl; [done|].
    unfold Re.char_eq. by rewrite lower_char_idemp, IH.
  - destruct s as [|d [|d' s]]; simpl; [apply (IH "")| |done].
    rewrite lower_char_newline. f_equal. apply (IH (String d "")).
Qed.

End StringFacts.

(** * Further properties of the gatekeeper *)

Section GatekeeperExtras.

Import Swob Gatekeeper.

Lemma existsb_match_literals (ps : list string) (name : string) :
  Forall (fun p => Re.plain_pattern p = true) ps ->
  existsb (fun p => Re.match_seq true p name) (map Re.seq_of_string ps)
  = existsb (startswith_ci name) ps.
Proof.
  induction 1 as [|p ps Hp _ IH]; [done|].
  cbn [map existsb]. rewrite IH.
  by rewrite (match_literal p (proj2 (plain_pattern_not_meta p Hp))).
Qed.

Lemma exclusion_test_plain (exclusions : list string) (name : string) :
  exclusions <> [] ->
  Forall (fun p => Re.plain_pattern p = true) exclusions ->
  make_exclusion_test exclusions name = existsb (startswith_ci name) exclusions.
Proof.
  intros Hne Hplain. unfold make_exclusion_test, Re.re_match.
  rewrite compile_plain by done. by apply existsb_match_literals.
Qed.

(** X1: for any non-empty list of literal patterns, the test built by
    [make_exclusion_test] holds of a name exactly when the name starts,
    ignoring case, with one of the patterns. *)
Theorem X1_exclusion_test_is_prefix_test (exclusions : list string) (name : string) :
  exclusions <> [] ->
  Forall (fun p => Re.plain_pattern p = true) exclusions ->
  make_exclusion_test exclusions name = existsb (startswith_ci name) exclusions.
Proof.
  intros Hne Hplain. by apply exclusion_test_plain.
Qed.

(** X2: for exclusions written with letters, digits, [-], [_], [|] and
    [$] only (the joined expression is then within the modelled part of
    [re]): the empty list of exclusions does not exclude nothing, since
    the joined expression is the empty pattern, which matches every name;
    and the same holds as soon as one of the patterns is the empty
    string. *)
Theorem X2_empty_pattern_excludes_everything (exclusions : list string) (name : string) :
  Re.supported (PyStr.join "|" exclusions) = true ->
  exclusions = [] \/ "" ∈ exclusions ->
  make_exclusion_test exclusions name = true.
Proof.
  intros _ [-> | Hin]; [done|].
  unfold make_exclusion_test, Re.re_match, Re.compile.
  assert (Hne : exclusions <> []) by (intros ->; by apply elem_of_nil in Hin).
  rewrite split_join_flat by done.
  apply existsb_exists. exists []. split; [|done].
  apply in_map_iff. exists "". split; [done|].
  apply in_flat_map. exists "". split; [by apply list_elem_of_In|].
  by left.
Qed.

(** X3: the test ignores case: for every list of exclusions written with
    letters, digits, [-], [_], [|] and [$] only, two names that are equal
    once lower-cased get the same verdict. *)
Theorem X3_exclusion_test_ignores_case (exclusions : list string) (n1 n2 : string) :
  Re.supported (PyStr.join "|" exclusions) = true ->
  PyStr.lower n1 = PyStr.lower n2 ->
  make_exclusion_test exclusions n1 = make_exclusion_test exclusions n2.
Proof.
  intros _ Hlow. unfold make_exclusion_test, Re.re_match.
  generalize (Re.compile (PyStr.join "|" exclusions)) as r.
  induction r as [|p r IH]; [done|].
  cbn [existsb]. rewrite IH.
  by rewrite <- (match_seq_lower p n1), <- (match_seq_lower p n2), Hlow.
Qed.

(** X4: with literal patterns an excluded name stays excluded whatever is
    appended to it. *)
Theorem X4_excluded_name_extended_stays_excluded
    (exclusions : list string) (name suffix : string) :
  Forall (fun p => Re.plain_pattern p = true) exclusions ->
  make_exclusion_test exclusions name = true ->
  make_exclusion_test exclusions (name ++ suffix) = true.
Proof.
  intros Hplain. destruct exclusions as [|p ps]; [done|].
  rewrite !exclusion_test_plain by done.
  rewrite !existsb_exists. intros (q & Hq & Hpre). exists q. split; [done|].
  unfold startswith_ci in *. rewrite lower_append. by apply prefix_append.
Qed.

Lemma remove_items_nothing (hdrs : headers) (condition : string -> bool) :
  (forall name, is_Some (hdrs !! name) -> condition name = false) ->
  remove_items hdrs condition = (hdrs, ∅).
Proof.
  intros Hnone. unfold remove_items. f_equal.
  - apply map_filter_id. intros k v Hk. apply Hnone. by exists v.
  - apply map_eq. intros k. rewrite lookup_empty.
    apply map_lookup_filter_None. destruct (hdrs !! k) as [v|] eqn:Hk; [right|by left].
    intros x _. simpl. rewrite (Hnone k) by (by exists v). done.
Qed.

Lemma remove_items_removed_empty (hdrs : headers) (condition : string -> bool) :
  (remove_items hdrs condition).2 = ∅
  <-> forall name, condition name = true -> hdrs !! name = None.
Proof.
  split.
  - intros Hempty name Hc.
    pose proof (remove_items_removed hdrs condition name) as Hr.
    rewrite Hempty, lookup_empty, Hc in Hr. done.
  - intros Hnone. apply map_eq. intros k.
    rewrite remove_items_removed, lookup_empty.
    destruct (condition k) eqn:Hc; [by apply Hnone|done].
Qed.

Lemma log_of_call (gk : GatekeeperMiddleware) (req : Request) :
  let r := __call__ gk req in
  log r = (debug_if_nonempty (removed_inbound r) (RemovedRequestHeaders (removed_inbound r))
           ++ debug_if_nonempty (removed_outbound r)
                (RemovedResponseHeaders (removed_outbound r)))%list
  /\ delivered_request r = set_req_headers req (req_headers (delivered_request r))
  /\ delivered_response r
     = set_resp_headers (app gk (delivered_request r)) (resp_headers (delivered_response r)).
Proof.
  unfold __call__.
  destruct (remove_items (req_headers req) _) as [kept_in removed_in].
  cbn [delivered_request].
  destruct (remove_items (resp_headers _) _) as [kept_out removed_out].
  repeat split.
Qed.

(** X5: on the way out the middleware hands the client the wrapped
    application's response with exactly the headers that start with a
    system-metadata prefix taken away; status and body are the
    application's, and the headers taken away are the ones reported. *)
Theorem X5_outbound_filter_removes_prefixed
    (wrapped : Request -> Response) (req : Request) (name : string) :
  let r := __call__ (__init__ wrapped) req in
  let upstream := wrapped (delivered_request r) in
  let excluded := existsb (startswith_ci name) outbound_exclusions in
  resp_headers (delivered_response r) !! name
    = (if excluded then None else resp_headers upstream !! name)
  /\ removed_outbound r !! name
     = (if excluded then resp_headers upstream !! name else None)
  /\ status_int (delivered_response r) = status_int upstream
  /\ body (delivered_response r) = body upstream.
Proof.
  intros r upstream excluded. subst r upstream excluded.
  destruct (call_outbound (__init__ wrapped) req) as [Hk Hr].
  destruct (log_of_call (__init__ wrapped) req) as (_ & _ & Hresp).
  rewrite Hk, Hr, remove_items_kept, remove_items_removed, init_outbound_condition.
  rewrite exclusion_test_startswith.
  split; [done|]. split; [done|].
  rewrite Hresp. done.
Qed.

(** X6: the middleware writes a debug line exactly when it removed
    something: the log of a call is empty if and only if neither the
    request nor the wrapped application's response carries a header that
    starts with a system-metadata prefix; there are never more than two
    lines. *)
Theorem X6_logs_exactly_when_headers_removed
    (wrapped : Request -> Response) (req : Request) :
  let r := __call__ (__init__ wrapped) req in
  let upstream := wrapped (delivered_request r) in
  (log r = [] <->
   forall name, existsb (startswith_ci name) inbound_exclusions = true ->
                req_headers req !! name = None /\ resp_headers upstream !! name = None)
  /\ (length (log r) <= 2)%nat.
Proof.
  intros r upstream. subst r upstream.
  destruct (log_of_call (__init__ wrapped) req) as (Hlog & _ & _).
  destruct (call_inbound (__init__ wrapped) req) as [_ Hin].
  destruct (call_outbound (__init__ wrapped) req) as [_ Hout].
  cbn [app __init__] in Hout.
  rewrite init_outbound_condition in Hout. rewrite init_inbound_condition in Hin.
  rewrite Hlog. clear Hlog. unfold debug_if_nonempty.
  remember (removed_inbound (__call__ (__init__ wrapped) req)) as removed_in eqn:E1.
  remember (removed_outbound (__call__ (__init__ wrapped) req)) as removed_out eqn:E2.
  remember (wrapped (delivered_request (__call__ (__init__ wrapped) req)))
    as upstream eqn:E3.
  clear E1 E2 E3.
  assert (Hi := remove_items_removed_empty (req_headers req)
                  (make_exclusion_test inbound_exclusions)).
  assert (Ho := remove_items_removed_empty (resp_headers upstream)
                  (make_exclusion_test inbound_exclusions)).
  rewrite <- Hin in Hi. rewrite <- Hout in Ho.
  setoid_rewrite exclusion_test_startswith in Hi.
  setoid_rewrite exclusion_test_startswith in Ho.
  split; [|destruct (decide (removed_in = ∅)), (decide (removed_out = ∅)); simpl; lia].
  split.
  - intros Hlog_empty name Hex.
    destruct (decide (removed_in = ∅)) as [Hie|]; [|done].
    destruct (decide (removed_out = ∅)) as [Hoe|]; [|done].
    split; [by apply Hi|by apply Ho].
  - intros Hnone.
    assert (removed_in = ∅) as -> by (apply Hi; intros name Hex; by apply Hnone).
    assert (removed_out = ∅) as -> by (apply Ho; intros name Hex; by apply Hnone).
    done.
Qed.

(** X7: traffic without system-metadata headers passes untouched: if no
    header of the request and no header of the wrapped application's
    answer starts with one of the prefixes, the application receives the
    request as it came, the client receives the application's response as
    it is, and nothing is logged. *)
Theorem X7_transparent_without_sysmeta
    (wrapped : Request -> Response) (req : Request) :
  (forall name, is_Some (req_headers req !! name) ->
     existsb (startswith_ci name) inbound_exclusions = false) ->
  (forall name, is_Some (resp_headers (wrapped req) !! name) ->
     existsb (startswith_ci name) inbound_exclusions = false) ->
  let r := __call__ (__init__ wrapped) req in
  delivered_request r = req
  /\ delivered_response r = wrapped req
  /\ removed_inbound r = ∅
  /\ removed_outbound r = ∅
  /\ log r = [].
Proof.
  intros Hreq Hresp. cbv zeta. unfold __call__.
  rewrite init_inbound_condition, init_outbound_condition.
  rewrite remove_items_nothing
    by (intros name Hn; rewrite exclusion_test_startswith; by apply Hreq).
  assert (Hsame : set_req_headers req (req_headers req) = req) by (by destruct req).
  rewrite Hsame. change (app (__init__ wrapped) req) with (wrapped req).
  rewrite remove_items_nothing
    by (intros name Hn; rewrite exclusion_test_startswith; by apply Hresp).
  cbn. repeat split. by destruct (wrapped req).
Qed.

(** X8: filtering is idempotent: a request that has passed one gatekeeper
    passes a second one unchanged, with nothing removed. *)
Theorem X8_second_gatekeeper_removes_nothing
    (outer inner : Request -> Response) (req : Request) :
  let passed := delivered_request (__call__ (__init__ outer) req) in
  let again := __call__ (__init__ inner) passed in
  delivered_request again = passed /\ removed_inbound again = ∅.
Proof.
  cbv zeta.
  destruct (call_inbound (__init__ outer) req) as [Hkept _].
  set (passed := delivered_request (__call__ (__init__ outer) req)) in *.
  destruct (call_inbound (__init__ inner) passed) as [Hk2 Hr2].
  destruct (log_of_call (__init__ inner) passed) as (_ & Hreq & _).
  assert (Hnone : remove_items (req_headers passed)
                    (inbound_condition (__init__ inner))
                  = (req_headers passed, ∅)).
  { apply remove_items_nothing. intros name [v Hv].
    rewrite Hkept, remove_items_kept in Hv.
    rewrite init_inbound_condition in *.
    by destruct (make_exclusion_test inbound_exclusions name). }
  rewrite Hnone in Hk2, Hr2. split; [|done].
  rewrite Hreq, Hk2. by destruct passed.
Qed.

End GatekeeperExtras.

(** * Further properties of the account controller *)

(** Split a handler's run on every test it makes and every result a
    collaborator hands back. *)
Ltac handler_step C :=
  match goal with
  | |- context [Account.allow_account_management ?a] =>
      destruct (Account.allow_account_management a)
  | |- context [Account.name_too_long C ?s] => destruct (Account.name_too_long C s)
  | |- context [Account.check_metadata C ?r ?t] => destruct (Account.check_metadata C r t)
  | |- context [String.eqb ?a ?b] => destruct (String.eqb a b)
  | |- context [Account.memcache ?a] => destruct (Account.memcache a)
  | |- context [Account.get_nodes C ?e ?n] =>
      destruct (Account.get_nodes C e n) as [[? ?] ?]
  | |- context [Account.generate_request_headers C ?e ?r ?t] =>
      destruct (Account.generate_request_headers C e r t) as [? ?]
  | |- context [Account.make_requests C ?e ?r ?p ?m ?pa ?h] =>
      destruct (Account.make_requests C e r p m pa h) as [? ?]
  | |- context [Account.GETorHEAD_base C ?e ?r ?s ?p ?pa] =>
      destruct (Account.GETorHEAD_base C e r s p pa) as [? ?]
  | |- context [((?a =? ?b)%nat && ?c)%bool] =>
      destruct ((a =? b)%nat && c)%bool eqn:?
  end.

Ltac handler_cases C :=
  unfold_handler;
  repeat (handler_step C; cbn beta iota zeta delta [fst snd negb]).

Section AccountExtras.

Import Swob Account.

Context (C : Collaborators).

Implicit Types (self : AccountController) (req : Request) (e : Env C) (m : Method).

Lemma unquote_length_bounded (n : nat) (s : string) :
  (String.length s <= n)%nat ->
  (String.length (PyStr.unquote s) <= String.length s)%nat.
Proof.
  revert s. induction n as [|n IH]; intros s Hs.
  - destruct s; [done|simpl in Hs; lia].
  - destruct s as [|c s1]; [done|]. simpl in Hs.
    assert (Hone : (String.length (String c (PyStr.unquote s1))
                    <= String.length (String c s1))%nat).
    { simpl. specialize (IH s1). lia. }
    cbn [PyStr.unquote]. destruct (Ascii.eqb c "%"); [|exact Hone].
    destruct s1 as [|h [|l s2]]; [exact Hone..|].
    destruct (PyStr.hex_val h), (PyStr.hex_val l); try exact Hone.
    simpl. simpl in Hs. specialize (IH s2). lia.
Qed.

(** X9: percent-decoding never makes a name longer, so a raw account
    name within the limit gives a controller whose name passes the length
    check of every handler. *)
Theorem X9_raw_name_within_limit_is_accepted (a : App) (raw : string) self :
  __init__ C a raw = Some self ->
  (String.length raw <= MAX_ACCOUNT_NAME_LENGTH C)%nat ->
  (String.length (account_name self) <= String.length raw)%nat
  /\ name_too_long C self = false.
Proof.
  intros [_ Hname]%init_fields Hlen.
  pose proof (unquote_length_bounded (String.length raw) raw (le_n _)) as Hdec.
  rewrite <- Hname in Hdec. split; [exact Hdec|].
  unfold name_too_long. apply Nat.ltb_ge. lia.
Qed.

(** X10: building the controller fails (the [KeyError] of [set.remove])
    exactly when account management is off and the base controller's
    allowed methods lack PUT or DELETE; with account management on it
    always succeeds and leaves the allowed methods as they were. *)
Theorem X10_init_fails_only_on_missing_method (a : App) (raw : string) :
  (__init__ C a raw = None <->
   allow_account_management a = false
   /\ ("PUT" ∉ base_allowed_methods C \/ "DELETE" ∉ base_allowed_methods C))
  /\ (allow_account_management a = true ->
      __init__ C a raw
      = Some {| app := a; account_name := PyStr.unquote raw;
                allowed_methods := base_allowed_methods C |}).
Proof.
  unfold __init__, set_remove. destruct (allow_account_management a); simpl.
  - split; [|done]. split; [done|]. by intros [? _].
  - split; [|done].
    destruct (decide ("PUT" ∈ base_allowed_methods C)) as [Hput|Hput].
    + destruct (decide ("DELETE" ∈ base_allowed_methods C ∖ {["PUT"]})) as [Hdel|Hdel].
      * split; [done|]. intros [_ [Hn|Hn]]; [done|].
        apply elem_of_difference in Hdel as [Hdel _]. done.
      * split; [|done]. intros _. split; [done|]. right. intros Hin. apply Hdel.
        apply elem_of_difference. split; [done|].
        intros Heq%elem_of_singleton. discriminate Heq.
    + split; [|done]. intros _. split; [done|]. by left.
Qed.

(** X11: the read path never writes: a GET or HEAD never generates
    request headers, never deletes a cache key, never calls
    [make_requests] and never creates the account; it resolves the ring
    at most once and reads at most once. *)
Theorem X11_read_path_never_writes m self req e :
  m = mGET \/ m = mHEAD ->
  let calls := (handle C m self req e).2 in
  Forall (fun ev => is_generate_headers ev = false
                    /\ is_cache_delete ev = false
                    /\ is_make_requests ev = false
                    /\ is_autocreate ev = false) calls
  /\ (count_calls is_ring_lookup calls <= 1)%nat
  /\ (count_calls is_dispatch calls <= 1)%nat.
Proof.
  intros [-> | ->]; cbv zeta; cbn [handle]; handler_cases C;
    cbn; repeat constructor.
Qed.

(** X14: every handler makes a bounded number of calls, whatever the
    collaborators answer: at most one ring lookup, one header
    generation, one cache delete and one implicit create, at most two
    [make_requests] for POST and one for PUT and DELETE, none for GET and
    HEAD, and never more than six calls in all. *)
Theorem X14_calls_are_bounded m self req e :
  let calls := (handle C m self req e).2 in
  (count_calls is_ring_lookup calls <= 1)%nat
  /\ (count_calls is_generate_headers calls <= 1)%nat
  /\ (count_calls is_cache_delete calls <= 1)%nat
  /\ (count_calls is_autocreate calls <= 1)%nat
  /\ (count_calls is_make_requests calls
      <= match m with mPOST => 2 | mPUT | mDELETE => 1 | mGET | mHEAD => 0 end)%nat
  /\ (length calls <= 6)%nat.
Proof.
  cbv zeta. destruct m; cbn [handle]; handler_cases C;
    cbn; repeat split; lia.
Qed.

(** X15: every call a handler makes is about its own account and its own
    request: ring lookups, implicit creates and cache deletes name the
    controller's account, dispatches carry the request, its path and the
    handler's own method, header generation transfers client metadata
    for PUT and POST and not for DELETE, only POST creates, and only GET
    and HEAD read the clock. *)
Theorem X15_calls_are_about_own_account m self req e :
  Forall (own_call C self req m) (handle C m self req e).2.
Proof.
  destruct m; cbn [handle]; handler_cases C; cbn;
    repeat match goal with
      | |- Forall _ (_ :: _) => constructor; [cbn; auto|]
      | |- Forall _ [] => constructor
      end.
Qed.

(** X17: the ring lookup comes first: a handler either makes no call at
    all, and then leaves the environment as it found it, or its first
    call resolves the controller's account on the ring. *)
Theorem X17_ring_lookup_comes_first m self req e :
  let run := handle C m self req e in
  (run.2 = [] /\ run.1.2 = e)
  \/ (exists rest, run.2 = RingGetNodes (account_name self) :: rest).
Proof.
  cbv zeta. destruct m; cbn [handle]; handler_cases C;
    cbn; first [by left | right; by eexists].
Qed.

(** X18: with autocreate off no handler creates an account or reads the
    clock, whatever the account servers answer. *)
Theorem X18_autocreate_off_never_creates m self req e :
  account_autocreate (app self) = false ->
  Forall (fun ev => is_autocreate ev = false /\ ev <> TimeTime)
    (handle C m self req e).2.
Proof.
  intros Hoff. destruct m; cbn [handle]; handler_cases C;
    try match goal with
      | H : (_ && account_autocreate _)%bool = true |- _ =>
          rewrite Hoff, andb_false_r in H; discriminate H
      end;
    cbn; repeat constructor; done.
Qed.

(** X12: a PUT that passes its checks contacts the account servers
    exactly once and returns that decision and environment as they are:
    no implicit create and no second dispatch follow, whatever the status
    of the response and whatever the autocreate setting. *)
Theorem X12_put_dispatches_once_and_returns_verbatim
    self req e part accounts e1 h e2 :
  allow_account_management (app self) = true ->
  check_metadata C req "account" = None ->
  name_too_long C self = false ->
  get_nodes C e (account_name self) = ((part, accounts), e1) ->
  generate_request_headers C e1 req true = (h, e2) ->
  let sent :=
    make_requests C (invalidate_cache C self e2).1.2 req part "PUT" (path_info req)
      (replicate (length accounts) h) in
  let run := PUT C self req e in
  run.1.1 = sent.1
  /\ run.1.2 = sent.2
  /\ List.filter is_dispatch run.2
     = [MakeRequests req part "PUT" (path_info req) (replicate (length accounts) h)].
Proof.
  intros Hon Hmeta Hname Hring Hgen sent run. subst run sent.
  rewrite (PUT_dispatched C self req e part accounts e1 h e2 Hon Hmeta Hname Hring Hgen).
  cbv zeta. unfold invalidate_cache, perform_, ret.
  destruct (memcache (app self)); cbn; repeat split.
Qed.

(** X13: a DELETE with an empty query string and account management on
    is dispatched whatever the length of the account name and whatever
    the metadata: it resolves the ring, generates headers without
    transferring client metadata, contacts the account servers exactly
    once and returns that decision as it is. *)
Theorem X13_delete_dispatches_without_validation
    self req e part accounts e1 h e2 :
  query_string req = "" ->
  allow_account_management (app self) = true ->
  get_nodes C e (account_name self) = ((part, accounts), e1) ->
  generate_request_headers C e1 req false = (h, e2) ->
  let sent :=
    make_requests C (invalidate_cache C self e2).1.2 req part "DELETE" (path_info req)
      (replicate (length accounts) h) in
  let run := DELETE C self req e in
  run.1.1 = sent.1
  /\ run.1.2 = sent.2
  /\ List.filter is_generate_headers run.2 = [GenerateRequestHeaders req false]
  /\ List.filter is_dispatch run.2
     = [MakeRequests req part "DELETE" (path_info req) (replicate (length accounts) h)].
Proof.
  intros Hq Hon Hring Hgen sent run. subst run sent.
  rewrite (DELETE_dispatched C self req e part accounts e1 h e2 Hq Hon Hring Hgen).
  cbv zeta. unfold invalidate_cache, perform_, ret.
  destruct (memcache (app self)); cbn; repeat split.
Qed.

Lemma rstrip_no_trailing (c : ascii) (s : string) :
  last (list_ascii_of_string (PyStr.rstrip c s)) <> Some c.
Proof.
  induction s as [|d s IH]; [done|]. cbn [PyStr.rstrip].
  destruct (PyStr.rstrip c s) as [|x r] eqn:Hr.
  - destruct (Ascii.eqb d c) eqn:Hd; [done|].
    apply Ascii.eqb_neq in Hd. simpl. congruence.
  - exact IH.
Qed.

Lemma rstrip_only_trailing (c : ascii) (s : string) :
  exists n, list_ascii_of_string s
            = (list_ascii_of_string (PyStr.rstrip c s) ++ replicate n c)%list.
Proof.
  induction s as [|d s [n IH]]; [by exists 0%nat|]. cbn [PyStr.rstrip].
  destruct (PyStr.rstrip c s) as [|x r] eqn:Hr.
  - destruct (Ascii.eqb d c) eqn:Hd.
    + apply Ascii.eqb_eq in Hd as ->. exists (S n). simpl. by rewrite IH.
    + exists n. simpl. by rewrite IH.
  - exists n. simpl. rewrite IH. done.
Qed.

(** X16: the path a GET or HEAD reads from the account servers is the
    request's path without its trailing slashes: it does not end in a
    slash, and the request's path is that path followed by slashes only. *)
Theorem X16_read_path_has_no_trailing_slash m self req e r server_type part path :
  m = mGET \/ m = mHEAD ->
  GetOrHeadBase r server_type part path ∈ (handle C m self req e).2 ->
  last (list_ascii_of_string path) <> Some "/"%char
  /\ exists n, list_ascii_of_string (path_info req)
               = (list_ascii_of_string path ++ replicate n "/"%char)%list.
Proof.
  intros Hm. revert Hm.
  intros [-> | ->]; cbn [handle]; handler_cases C; cbn; intros Hin;
    repeat match goal with
      | H : _ ∈ _ :: _ |- _ => apply elem_of_cons in H as [H|H]
      | H : _ ∈ [] |- _ => by apply elem_of_nil in H
      end;
    try discriminate; inversion Hin; subst;
    (split; [apply rstrip_no_trailing | apply rstrip_only_trailing]).
Qed.

End AccountExtras.

(** ** The further properties at concrete inputs *)

Lemma X1_witness :
  let exclusions := ["x-timestamp"; "x-backend-"] in
  exclusions <> []
  /\ Forall (fun p => Re.plain_pattern p = true) exclusions
  /\ Gatekeeper.make_exclusion_test exclusions "X-Backend-Storage-Policy"
     = existsb (Gatekeeper.startswith_ci "X-Backend-Storage-Policy") exclusions.
Proof.
  cbv zeta.
  assert (Hne : ["x-timestamp"; "x-backend-"] <> []) by discriminate.
  assert (Hplain : Forall (fun p => Re.plain_pattern p = true)
                     ["x-timestamp"; "x-backend-"])
    by (repeat constructor).
  split; [exact Hne|]. split; [exact Hplain|].
  exact (X1_exclusion_test_is_prefix_test _ "X-Backend-Storage-Policy" Hne Hplain).
Defined.

Lemma X2_witness :
  let exclusions := ["x-account-sysmeta-"; ""] in
  Re.supported (PyStr.join "|" exclusions) = true
  /\ (exclusions = [] \/ "" ∈ exclusions)
  /\ Gatekeeper.make_exclusion_test exclusions "Content-Type" = true.
Proof.
  cbv zeta.
  assert (Hin : ["x-account-sysmeta-"; ""] = [] \/ "" ∈ ["x-account-sysmeta-"; ""])
    by (right; apply elem_of_cons; right; apply elem_of_cons; by left).
  split; [reflexivity|]. split; [exact Hin|].
  exact (X2_empty_pattern_excludes_everything ["x-account-sysmeta-"; ""] "Content-Type"
           eq_refl Hin).
Defined.

Lemma X3_witness :
  Re.supported (PyStr.join "|" Gatekeeper.inbound_exclusions) = true
  /\ PyStr.lower "X-OBJECT-SYSMETA-Etag" = PyStr.lower "x-object-sysmeta-ETAG"
  /\ Gatekeeper.make_exclusion_test Gatekeeper.inbound_exclusions "X-OBJECT-SYSMETA-Etag"
     = Gatekeeper.make_exclusion_test Gatekeeper.inbound_exclusions "x-object-sysmeta-ETAG".
Proof.
  split; [reflexivity|]. split; [reflexivity|].
  exact (X3_exclusion_test_ignores_case Gatekeeper.inbound_exclusions
           "X-OBJECT-SYSMETA-Etag" "x-object-sysmeta-ETAG" eq_refl eq_refl).
Defined.

Lemma X4_witness :
  Forall (fun p => Re.plain_pattern p = true) Gatekeeper.inbound_exclusions
  /\ Gatekeeper.make_exclusion_test Gatekeeper.inbound_exclusions "X-Account-Sysmeta-" = true
  /\ Gatekeeper.make_exclusion_test Gatekeeper.inbound_exclusions
       ("X-Account-Sysmeta-" ++ "Quota-Bytes") = true.
Proof.
  assert (Hplain : Forall (fun p => Re.plain_pattern p = true)
                     Gatekeeper.inbound_exclusions)
    by (repeat constructor).
  split; [exact Hplain|]. split; [reflexivity|].
  exact (X4_excluded_name_extended_stays_excluded Gatekeeper.inbound_exclusions
           "X-Account-Sysmeta-" "Quota-Bytes" Hplain eq_refl).
Defined.

Lemma X7_witness :
  let wrapped := fun _ : Swob.Request => Demo.plain_response 204 in
  let req := Demo.mk_request "GET" "/v1/alpha" "" {[ "X-Account-Meta-Color" := "blue" ]} in
  let r := Gatekeeper.__call__ (Gatekeeper.__init__ wrapped) req in
  (forall name, is_Some (Swob.req_headers req !! name) ->
     existsb (Gatekeeper.startswith_ci name) Gatekeeper.inbound_exclusions = false)
  /\ (forall name, is_Some (Swob.resp_headers (wrapped req) !! name) ->
        existsb (Gatekeeper.startswith_ci name) Gatekeeper.inbound_exclusions = false)
  /\ Gatekeeper.delivered_request r = req
  /\ Gatekeeper.delivered_response r = wrapped req
  /\ Gatekeeper.log r = [].
Proof.
  cbv zeta.
  set (wrapped := fun _ : Swob.Request => Demo.plain_response 204).
  set (req := Demo.mk_request "GET" "/v1/alpha" "" {[ "X-Account-Meta-Color" := "blue" ]}).
  assert (Hreq : forall name, is_Some (Swob.req_headers req !! name) ->
            existsb (Gatekeeper.startswith_ci name) Gatekeeper.inbound_exclusions = false).
  { intros name [v Hv]. cbn in Hv.
    apply lookup_singleton_Some in Hv as [<- _]. reflexivity. }
  assert (Hresp : forall name, is_Some (Swob.resp_headers (wrapped req) !! name) ->
            existsb (Gatekeeper.startswith_ci name) Gatekeeper.inbound_exclusions = false).
  { intros name [v Hv]. cbn in Hv. by rewrite lookup_empty in Hv. }
  split; [exact Hreq|]. split; [exact Hresp|].
  destruct (X7_transparent_without_sysmeta wrapped req Hreq Hresp)
    as (H1 & H2 & _ & _ & H5).
  split; [exact H1|]. split; [exact H2 | exact H5].
Defined.

Lemma X9_witness :
  let a := Demo.app_settings true true true in
  let self := Demo.controller a "AUTH%5Ftest" in
  Account.__init__ Demo.collaborators a "AUTH%5Ftest" = Some self
  /\ (String.length "AUTH%5Ftest" <= Account.MAX_ACCOUNT_NAME_LENGTH Demo.collaborators)%nat
  /\ Account.account_name self = "AUTH_test"
  /\ Account.name_too_long Demo.collaborators self = false.
Proof.
  cbv zeta.
  assert (Hinit : Account.__init__ Demo.collaborators (Demo.app_settings true true true)
                    "AUTH%5Ftest"
                  = Some (Demo.controller (Demo.app_settings true true true) "AUTH%5Ftest"))
    by (vm_compute; reflexivity).
  assert (Hlen : (String.length "AUTH%5Ftest"
                  <= Account.MAX_ACCOUNT_NAME_LENGTH Demo.collaborators)%nat)
    by (apply Nat.leb_le; vm_compute; reflexivity).
  split; [exact Hinit|]. split; [exact Hlen|]. split; [reflexivity|].
  exact (proj2 (X9_raw_name_within_limit_is_accepted Demo.collaborators _ _ _
                  Hinit Hlen)).
Defined.

Lemma X11_witness :
  let self := Demo.controller (Demo.app_settings true true true) "alpha" in
  let req := Demo.mk_request "HEAD" "/v1/alpha" "" ∅ in
  let calls := (Account.handle Demo.collaborators Account.mHEAD self req Demo.world0).2 in
  (Account.mHEAD = Account.mGET \/ Account.mHEAD = Account.mHEAD)
  /\ Forall (fun ev => Account.is_generate_headers ev = false
                       /\ Account.is_cache_delete ev = false
                       /\ Account.is_make_requests ev = false
                       /\ Account.is_autocreate ev = false) calls
  /\ length calls = 3%nat.
Proof.
  cbv zeta. split; [right; reflexivity|].
  split; [|vm_compute; reflexivity].
  exact (proj1 (X11_read_path_never_writes Demo.collaborators Account.mHEAD
                  (Demo.controller (Demo.app_settings true true true) "alpha")
                  (Demo.mk_request "HEAD" "/v1/alpha" "" ∅) Demo.world0
                  (or_intror eq_refl))).
Defined.

Lemma X12_witness :
  let self := Demo.controller (Demo.app_settings true true true) "alpha" in
  let req := Demo.mk_request "PUT" "/v1/alpha" "" ∅ in
  let h : Swob.headers := {[ "X-Trans-Id" := "-" ]} in
  let run := Account.PUT Demo.collaborators self req Demo.world0 in
  Account.allow_account_management (Account.app self) = true
  /\ Account.check_metadata Demo.collaborators req "account" = None
  /\ Account.name_too_long Demo.collaborators self = false
  /\ Account.get_nodes Demo.collaborators Demo.world0 (Account.account_name self)
     = ((1%nat, ["sda"; "sdb"; "sdc"]), Demo.world0)
  /\ Account.generate_request_headers Demo.collaborators Demo.world0 req true
     = (h, Demo.world0)
  /\ Swob.status_int run.1.1 = 201%nat
  /\ List.filter Account.is_dispatch run.2
     = [Account.MakeRequests (C := Demo.collaborators) req 1%nat "PUT" "/v1/alpha"
          (replicate 3 h)].
Proof.
  cbv zeta.
  set (self := Demo.controller (Demo.app_settings true true true) "alpha").
  set (req := Demo.mk_request "PUT" "/v1/alpha" "" ∅).
  assert (Hmeta : Account.check_metadata Demo.collaborators req "account" = None)
    by (vm_compute; reflexivity).
  assert (Hname : Account.name_too_long Demo.collaborators self = false)
    by (vm_compute; reflexivity).
  assert (Hring : Account.get_nodes Demo.collaborators Demo.world0
                    (Account.account_name self)
                  = ((1%nat, ["sda"; "sdb"; "sdc"]), Demo.world0))
    by (vm_compute; reflexivity).
  assert (Hgen : Account.generate_request_headers Demo.collaborators Demo.world0 req true
                 = (({[ "X-Trans-Id" := "-" ]} : Swob.headers), Demo.world0))
    by (vm_compute; reflexivity).
  split; [reflexivity|]. split; [exact Hmeta|]. split; [exact Hname|].
  split; [exact Hring|]. split; [exact Hgen|].
  destruct (X12_put_dispatches_once_and_returns_verbatim Demo.collaborators self req
              Demo.world0 _ _ _ _ _ eq_refl Hmeta Hname Hring Hgen)
    as (Hresp & _ & Hcalls).
  split; [rewrite Hresp; vm_compute; reflexivity | exact Hcalls].
Defined.

Lemma X13_witness :
  let self := Demo.controller (Demo.app_settings true true true) Demo.long_name in
  let req := Demo.mk_request "DELETE" "/v1/long" "" {[ "X-Account-Meta-" := "v" ]} in
  let h : Swob.headers := {[ "X-Trans-Id" := "-" ]} in
  let run := Account.DELETE Demo.collaborators self req Demo.world0 in
  Swob.query_string req = ""
  /\ Account.allow_account_management (Account.app self) = true
  /\ Account.get_nodes Demo.collaborators Demo.world0 (Account.account_name self)
     = ((0%nat, ["sda"; "sdb"; "sdc"]), Demo.world0)
  /\ Account.generate_request_headers Demo.collaborators Demo.world0 req false
     = (h, Demo.world0)
  /\ Account.name_too_long Demo.collaborators self = true
  /\ Swob.status_int run.1.1 = 404%nat
  /\ List.filter Account.is_dispatch run.2
     = [Account.MakeRequests (C := Demo.collaborators) req 0%nat "DELETE" "/v1/long"
          (replicate 3 h)].
Proof.
  cbv zeta.
  set (self := Demo.controller (Demo.app_settings true true true) Demo.long_name).
  set (req := Demo.mk_request "DELETE" "/v1/long" "" {[ "X-Account-Meta-" := "v" ]}).
  assert (Hring : Account.get_nodes Demo.collaborators Demo.world0
                    (Account.account_name self)
                  = ((0%nat, ["sda"; "sdb"; "sdc"]), Demo.world0))
    by (vm_compute; reflexivity).
  assert (Hgen : Account.generate_request_headers Demo.collaborators Demo.world0 req false
                 = (({[ "X-Trans-Id" := "-" ]} : Swob.headers), Demo.world0))
    by (vm_compute; reflexivity).
  split; [reflexivity|]. split; [reflexivity|].
  split; [exact Hring|]. split; [exact Hgen|].
  split; [vm_compute; reflexivity|].
  destruct (X13_delete_dispatches_without_validation Demo.collaborators self req
              Demo.world0 _ _ _ _ _ eq_refl eq_refl Hring Hgen)
    as (Hresp & _ & _ & Hcalls).
  split; [rewrite Hresp; vm_compute; reflexivity | exact Hcalls].
Defined.

Lemma X16_witness :
  let self := Demo.controller (Demo.app_settings true true true) "alpha" in
  let req := Demo.mk_request "GET" "/v1/alpha//" "" ∅ in
  let read := Account.GetOrHeadBase (C := Demo.collaborators) req "Account" 1%nat "/v1/alpha" in
  (Account.mGET = Account.mGET \/ Account.mGET = Account.mHEAD)
  /\ read ∈ (Account.handle Demo.collaborators Account.mGET self req Demo.world0).2
  /\ last (list_ascii_of_string "/v1/alpha") <> Some "/"%char
  /\ exists n, list_ascii_of_string (Swob.path_info req)
               = (list_ascii_of_string "/v1/alpha" ++ replicate n "/"%char)%list.
Proof.
  cbv zeta.
  set (self := Demo.controller (Demo.app_settings true true true) "alpha").
  set (req := Demo.mk_request "GET" "/v1/alpha//" "" ∅).
  assert (Hin : Account.GetOrHeadBase (C := Demo.collaborators) req "Account" 1%nat
                  "/v1/alpha"
                ∈ (Account.handle Demo.collaborators Account.mGET self req Demo.world0).2).
  { assert (Hcalls :
      (Account.handle Demo.collaborators Account.mGET self req Demo.world0).2
      = [Account.RingGetNodes "alpha";
         Account.GetOrHeadBase (C := Demo.collaborators) req "Account" 1%nat "/v1/alpha";
         Account.TimeTime])
      by reflexivity.
    rewrite Hcalls. apply elem_of_cons. right. apply elem_of_cons. by left. }
  split; [left; reflexivity|]. split; [exact Hin|].
  exact (X16_read_path_has_no_trailing_slash Demo.collaborators Account.mGET self req
           Demo.world0 _ _ _ _ (or_introl eq_refl) Hin).
Defined.

Lemma X18_witness :
  let self := Demo.controller (Demo.app_settings true false true) "alpha" in
  let req := Demo.mk_request "POST" "/v1/alpha" "" ∅ in
  let run := Account.POST Demo.collaborators self req Demo.world0 in
  Account.account_autocreate (Account.app self) = false
  /\ Forall (fun ev => Account.is_autocreate ev = false /\ ev <> Account.TimeTime) run.2
  /\ Swob.status_int run.1.1 = 404%nat.
Proof.
  cbv zeta. split; [reflexivity|]. split; [|vm_compute; reflexivity].
  exact (X18_autocreate_off_never_creates Demo.collaborators Account.mPOST
           (Demo.controller (Demo.app_settings true false true) "alpha")
           (Demo.mk_request "POST" "/v1/alpha" "" ∅) Demo.world0 eq_refl).
Defined.
